(** * qbittorrentv2.client: a shallow embedding of the WEB API wrapper

    The development follows [src/qbittorrentv2/client.py].  Python values are
    an inductive type, dictionaries are association lists in insertion order,
    and the methods of [Client] are computations in a state-and-exception
    monad over the object's attributes and the network. *)

From Stdlib Require Import String Ascii List ZArith Bool Arith Lia.
From Stdlib Require Import DecimalString DecimalNat.
Import ListNotations.

Local Open Scope list_scope.
Local Open Scope string_scope.

(** ** Python strings *)

(** Strings are sequences of characters.  [str.lower] is a builtin of
    Python and a parameter of the development; [ascii_lower] is what it
    does on ASCII text, and serves to run the examples. *)

Definition is_upper (c : ascii) : bool :=
  (65 <=? nat_of_ascii c)%nat && (nat_of_ascii c <=? 90)%nat.

Definition lower_char (c : ascii) : ascii :=
  if is_upper c then ascii_of_nat (nat_of_ascii c + 32) else c.

Fixpoint ascii_lower (s : string) : string :=
  match s with
  | EmptyString => EmptyString
  | String c s' => String (lower_char c) (ascii_lower s')
  end.

(** [sep.join(l)] for a list of strings. *)
Fixpoint join (sep : string) (l : list string) : string :=
  match l with
  | [] => ""
  | [x] => x
  | x :: rest => x ++ sep ++ join sep rest
  end.

(** [s.endswith(suffix)]: the last [len(suffix)] characters of [s] are
    [suffix]. *)
Definition endswith (s suffix : string) : bool :=
  (String.length suffix <=? String.length s)%nat
  && (substring (String.length s - String.length suffix)
                (String.length suffix) s =? suffix).

(** The line feed used by ["\n".join(link)]. *)
Definition LF : string := String (ascii_of_nat 10) EmptyString.

(** ** Python values *)

#[local] Set Warnings "-register-all".

Inductive pyval : Type :=
| PNone
| PBool (b : bool)
| PInt (z : Z)
| PStr (s : string)
| PList (l : list pyval)
| PTuple (l : list pyval)
| PDict (d : list (string * pyval))
| PFile (n : nat).

(** A [dict] with string keys, kept in insertion order. *)
Definition dict : Type := list (string * pyval).

Fixpoint dict_get (k : string) (d : dict) : option pyval :=
  match d with
  | [] => None
  | (k', v) :: d' => if k' =? k then Some v else dict_get k d'
  end.

(** [d.get(k)]: the value, or [None] when the key is absent. *)
Definition dict_get_default (k : string) (d : dict) : pyval :=
  match dict_get k d with
  | Some v => v
  | None => PNone
  end.

Definition dict_has (k : string) (d : dict) : bool :=
  match dict_get k d with
  | Some _ => true
  | None => false
  end.

(** [d[k] = v]: an existing key keeps its place, a new one goes last. *)
Fixpoint dict_set (k : string) (v : pyval) (d : dict) : dict :=
  match d with
  | [] => [(k, v)]
  | (k', v') :: d' =>
      if k' =? k then (k, v) :: d' else (k', v') :: dict_set k v d'
  end.

Fixpoint dict_del (k : string) (d : dict) : dict :=
  match d with
  | [] => []
  | (k', v') :: d' =>
      if k' =? k then dict_del k d' else (k', v') :: dict_del k d'
  end.

(** [d.update(other)] *)
Definition dict_update (d other : dict) : dict :=
  fold_left (fun acc kv => dict_set (fst kv) (snd kv) acc) other d.


(** Truth value of an object, as tested by [if], [and] and [not]. *)
Definition truthy (v : pyval) : bool :=
  match v with
  | PNone => false
  | PBool b => b
  | PInt z => negb (z =? 0)%Z
  | PStr s => negb (s =? "")
  | PList l => negb (Nat.eqb (List.length l) 0)
  | PTuple l => negb (Nat.eqb (List.length l) 0)
  | PDict d => negb (Nat.eqb (List.length d) 0)
  | PFile _ => true
  end.

(** [v == n] for an integer literal [n]: [bool] is a subclass of [int],
    so [True == 1] and [False == 0]. *)
Definition py_eq_int (v : pyval) (n : Z) : bool :=
  match v with
  | PInt z => (z =? n)%Z
  | PBool b => ((if b then 1 else 0) =? n)%Z
  | _ => false
  end.

(** [v in [n1, ..., nk]] for a list of integer literals. *)
Definition py_in_ints (v : pyval) (l : list Z) : bool :=
  existsb (py_eq_int v) l.

(** [isinstance(v, int)] *)
Definition isinstance_int (v : pyval) : bool :=
  match v with
  | PInt _ | PBool _ => true
  | _ => false
  end.

(** ** Exceptions and outcomes *)

Inductive exn : Type :=
| LoginRequired
| HTTPError (status : Z)
| RuntimeError
| ValueError
| TypeError
| AttributeError
| KeyError
| ConnectionError.

Inductive outcome (A : Type) : Type :=
| Ret (a : A)
| Raise (e : exn).
Arguments Ret {A} a.
Arguments Raise {A} e.

(** ** The network *)

Inductive verb : Type := GET | POST.

(** One call of [session.get] or [session.post]: the session it was made
    on, the URL, the positional [data] of a POST and the keyword
    arguments handed on to [requests]. *)
Record http_request : Type := mk_request {
  rq_session : nat;
  rq_verb : verb;
  rq_url : string;
  rq_data : option pyval;
  rq_kwargs : dict
}.

Record http_response : Type := mk_response {
  status_code : Z;
  text : string
}.

(** What [requests] gives back: a response, or an exception when the
    server cannot be reached. *)
Inductive net_outcome : Type :=
| Responded (r : http_response)
| Unreachable.

(** The requests sent so far (most recent first) and the number of
    [requests.Session()] objects created. *)
Record World : Type := mk_world {
  sent : list http_request;
  sessions : nat
}.

(** ** The object *)

(** The attributes of a [Client]; [None] is an attribute that has not been
    assigned. *)
Record Client : Type := mk_client {
  url : string;
  _is_authenticated : option bool;
  session : option nat
}.

(** The attributes of the [Proxy] subclass built by [preferences]. *)
Record Proxy : Type := mk_proxy {
  proxy_client : Client;
  prefs : pyval
}.

(** ** Computations on an object and the network *)

Definition M (A : Type) : Type :=
  Client -> World -> outcome A * Client * World.

Definition ret {A : Type} (a : A) : M A := fun c w => (Ret a, c, w).

Definition raise {A : Type} (e : exn) : M A := fun c w => (Raise e, c, w).

Definition bind {A B : Type} (m : M A) (k : A -> M B) : M B :=
  fun c w =>
    match m c w with
    | (Ret a, c', w') => k a c' w'
    | (Raise e, c', w') => (Raise e, c', w')
    end.

Declare Scope py_scope.
Delimit Scope py_scope with py.
Notation "x <- m ;; k" := (bind m (fun x => k))
  (at level 61, m at next level, right associativity) : py_scope.
Notation "m ;; k" := (bind m (fun _ => k))
  (at level 61, right associativity) : py_scope.
Local Open Scope py_scope.

(** A pure computation that may raise. *)
Definition lift {A : Type} (o : outcome A) : M A := fun c w => (o, c, w).

(** Reading and assigning attributes of [self]. *)
Definition self_url : M string := fun c w => (Ret (url c), c, w).

Definition self_is_authenticated : M bool :=
  fun c w =>
    match _is_authenticated c with
    | Some b => (Ret b, c, w)
    | None => (Raise AttributeError, c, w)
    end.

Definition self_session : M nat :=
  fun c w =>
    match session c with
    | Some s => (Ret s, c, w)
    | None => (Raise AttributeError, c, w)
    end.

Definition set_is_authenticated (b : bool) : M unit :=
  fun c w => (Ret tt, mk_client (url c) (Some b) (session c), w).

Definition set_session (s : nat) : M unit :=
  fun c w => (Ret tt, mk_client (url c) (_is_authenticated c) (Some s), w).

(** [requests.Session()] *)
Definition new_session : M nat :=
  fun c w => (Ret (sessions w), c, mk_world (sent w) (S (sessions w))).

(** The outputs of a computation. *)
Definition result_of {A : Type} (r : outcome A * Client * World) : outcome A :=
  fst (fst r).
Definition client_of {A : Type} (r : outcome A * Client * World) : Client :=
  snd (fst r).
Definition world_of {A : Type} (r : outcome A * Client * World) : World :=
  snd r.

(** ** Pure helpers of the wrapper *)

Section Python.

(** [s.lower()] on a [str]. *)
Variable lower : string -> string.

(** [v.lower()]: only a [str] has the method. *)
Definition py_lower (v : pyval) : outcome string :=
  match v with
  | PStr s => Ret (lower s)
  | _ => Raise AttributeError
  end.

(** [[h.lower() for h in l]] *)
Fixpoint lower_each (l : list pyval) : outcome (list string) :=
  match l with
  | [] => Ret []
  | h :: t =>
      match py_lower h with
      | Ret s =>
          match lower_each t with
          | Ret r => Ret (s :: r)
          | Raise e => Raise e
          end
      | Raise e => Raise e
      end
  end.

(** The items of a list handed to [str.join]: each must be a [str]. *)
Fixpoint str_items (l : list pyval) : outcome (list string) :=
  match l with
  | [] => Ret []
  | PStr s :: t =>
      match str_items t with
      | Ret r => Ret (s :: r)
      | Raise e => Raise e
      end
  | _ :: _ => Raise TypeError
  end.

(** [_process_infohash_list], client.py 803-814. *)
Definition _process_infohash_list (infohash_list : pyval) : outcome dict :=
  match infohash_list with
  | PList l =>
      match lower_each l with
      | Ret hs => Ret [("hashes", PStr (join "|" hs))]
      | Raise e => Raise e
      end
  | other =>
      match py_lower other with
      | Ret h => Ret [("hashes", PStr h)]
      | Raise e => Raise e
      end
  end.

(** The name under which [torrents] sends a keyword, client.py 370. *)
Definition sent_name (name : string) : string :=
  if name =? "status" then "filter" else name.

(** One round of the loop of [torrents], client.py 368-371. *)
Definition torrents_round (params : dict) (item : string * pyval) : dict :=
  let name := sent_name (fst item) in
  dict_set name (snd item) params.

(** The loop of [torrents], client.py 367-371. *)
Definition torrents_params (filters : dict) : dict :=
  fold_left torrents_round filters [].

(** The old-to-new argument table of [download_from_link]. *)
Definition old_arg_map : list (string * string) := [("save_path", "savepath")].

(** The renaming loop of [download_from_link], client.py 517-520. *)
Definition convert_old_args (kwargs : dict) : dict :=
  fold_left
    (fun options names =>
       let old_arg := fst names in
       let new_arg := snd names in
       if truthy (dict_get_default old_arg options)
          && negb (truthy (dict_get_default new_arg options))
       then dict_set new_arg (dict_get_default old_arg options) options
       else options)
    old_arg_map kwargs.

(** The form fields of [download_from_link], client.py 517-525. *)
Definition download_from_link_options (link : pyval) (kwargs : dict)
  : outcome dict :=
  let options := convert_old_args kwargs in
  match link with
  | PList l =>
      match str_items l with
      | Ret ss => Ret (dict_set "urls" (PStr (join LF ss)) options)
      | Raise e => Raise e
      end
  | other => Ret (dict_set "urls" other options)
  end.

(** Keyword names that collide with parameters already bound in a call. *)
Definition clashes (names : list string) (kwargs : dict) : bool :=
  existsb (fun n => dict_has n kwargs) names.

(** ** The public interface

    One constructor per public method or property of [Client], with its
    arguments; keyword arguments with a default are given explicitly. *)

Inductive call : Type :=
| Call_login (username password : pyval)
| Call_logout
| Call_qbittorrent_version
| Call_api_version
| Call_shutdown
| Call_preferences
| Call_set_preferences (kwargs : dict)
| Call_get_default_save_path
| Call_get_log (normal info warning critical last_known_id : pyval)
| Call_get_peer_log (last_known_id : pyval)
| Call_get_sync_maindata (rid : pyval)
| Call_get_sync_torrentPeers (hash rid : pyval)
| Call_global_transfer_info
| Call_get_alternative_speed_status
| Call_toggle_alternative_speed
| Call_get_global_download_limit
| Call_set_global_download_limit (limit : pyval)
| Call_get_global_upload_limit
| Call_set_global_upload_limit (limit : pyval)
| Call_torrents (filters : dict)
| Call_get_torrent (infohash : pyval)
| Call_get_torrent_trackers (infohash : pyval)
| Call_get_torrent_webseeds (infohash : pyval)
| Call_get_torrent_files (infohash : pyval)
| Call_get_torrent_pieces_state (infohash : pyval)
| Call_get_torrent_pieces_hashes (infohash : pyval)
| Call_pause (infohash_list : pyval)
| Call_pause_all
| Call_resume (infohash_list : pyval)
| Call_resume_all
| Call_delete (infohash_list : pyval)
| Call_delete_permanently (infohash_list : pyval)
| Call_recheck (infohash_list : pyval)
| Call_recheck_all
| Call_reannounce (infohash_list : pyval)
| Call_reannounce_all
| Call_download_from_link (link : pyval) (kwargs : dict)
| Call_download_from_file (file_buffer : pyval) (kwargs : dict)
| Call_add_trackers (infohash trackers : pyval)
| Call_increase_priority (infohash_list : pyval)
| Call_decrease_priority (infohash_list : pyval)
| Call_set_max_priority (infohash_list : pyval)
| Call_set_min_priority (infohash_list : pyval)
| Call_set_file_priority (infohash file_id priority : pyval)
| Call_get_torrent_download_limit (infohash_list : pyval)
| Call_set_torrent_download_limit (infohash_list limit : pyval)
| Call_set_torrent_share_limit
    (infohash_list ratioLimit seedingTimeLimit : pyval)
| Call_get_torrent_upload_limit (infohash_list : pyval)
| Call_set_torrent_upload_limit (infohash_list limit : pyval)
| Call_set_location (infohash_list location : pyval)
| Call_set_torrent_name (infohash name : pyval)
| Call_set_category (infohash_list category : pyval)
| Call_add_category (category : pyval)
| Call_edit_category (category savePath : pyval)
| Call_remove_category (category_list : pyval)
| Call_set_automatic_torrent (infohash_list enable : pyval)
| Call_set_automatic_torrent_all (enable : pyval)
| Call_toggle_sequential_download (infohash_list : pyval)
| Call_toggle_first_last_piece_priority (infohash_list : pyval)
| Call_force_start (infohash_list value : pyval)
| Call_set_super_seeding (infohash_list value : pyval)
| Call_set_super_seeding_all (value : pyval)
| Call_add_folder (path : pyval)
| Call_add_feed (url0 path : pyval)
| Call_remove_item (path : pyval)
| Call_get_item (withData : pyval)
| Call_set_rule (ruleName ruleDef : pyval)
| Call_rename_rule (ruleName newRuleName : pyval)
| Call_remove_rule (ruleName : pyval)
| Call_get_rules.

(** What a call returns: a value, or the [Proxy] object of [preferences]. *)
Inductive retval : Type :=
| RVal (v : pyval)
| RProxy (p : Proxy).

(** ** The request helpers and the constructor *)

Section Wrapper.

(** The remote side: the answer to a request, given the requests that came
    before it. *)
Variable server : list http_request -> http_request -> net_outcome.

(** [json.loads] on a string ([None]: it raises [ValueError]) and
    [json.dumps] ([None]: the value is not serializable, [TypeError]). *)
Variable json_loads : string -> option pyval.
Variable json_dumps : pyval -> option string.

(** Sending a request records it and asks the server. *)
Definition send (rq : http_request) : M http_response :=
  fun c w =>
    let w' := mk_world (rq :: sent w) (sessions w) in
    match server (sent w) rq with
    | Responded r => (Ret r, c, w')
    | Unreachable => (Raise ConnectionError, c, w')
    end.

(** [session.get(url, **kwargs)] and [session.post(url, data, **kwargs)].
    The keyword arguments are recorded as they are given; which names
    [requests] accepts is not part of the model. *)
Definition session_get (s : nat) (u : string) (kwargs : dict)
  : M http_response :=
  send (mk_request s GET u None kwargs).

Definition session_post (s : nat) (u : string) (data : pyval) (kwargs : dict)
  : M http_response :=
  send (mk_request s POST u (Some data) kwargs).

(** [Response.raise_for_status()] of [requests]: statuses 400 to 599 raise. *)
Definition is_error_status (st : Z) : bool :=
  ((400 <=? st) && (st <? 600))%Z.

Definition raise_for_status (r : http_response) : M unit :=
  if is_error_status (status_code r)
  then raise (HTTPError (status_code r))
  else ret tt.

(** [_request], client.py 64-97.  [text] is the body as decoded with the
    encoding set on line 87. *)
Definition _request (endpoint method : string) (data : pyval) (kwargs : dict)
  : M pyval :=
  u <- self_url ;;
  let final_url := u ++ endpoint in
  auth <- self_is_authenticated ;;
  if negb auth then raise LoginRequired
  else
    rq <- self_session ;;
    request <- (if method =? "get"
                then session_get rq final_url kwargs
                else session_post rq final_url data kwargs) ;;
    raise_for_status request ;;
    if Nat.eqb (String.length (text request)) 0
    then match json_loads "{}" with
         | Some v => ret v
         | None => raise ValueError
         end
    else match json_loads (text request) with
         | Some v => ret v
         | None => ret (PStr (text request))
         end.

(** [_get], client.py 41-50: [self._request(endpoint, 'get', **kwargs)].
    A keyword named [data] is bound to the parameter [data] of [_request];
    one named like a parameter that is already bound is a [TypeError]. *)
Definition _get (endpoint : string) (kwargs : dict) : M pyval :=
  if clashes ["self"; "endpoint"; "method"] kwargs then raise TypeError
  else _request endpoint "get"
         (dict_get_default "data" kwargs) (dict_del "data" kwargs).

(** [_post], client.py 52-62:
    [self._request(endpoint, 'post', data, **kwargs)]. *)
Definition _post (endpoint : string) (data : pyval) (kwargs : dict)
  : M pyval :=
  if clashes ["self"; "endpoint"; "method"; "data"] kwargs then raise TypeError
  else _request endpoint "post" data kwargs.

(** [Client.__init__], client.py 12-33, from line 17 on. *)
Definition __init__body : M unit :=
  u <- self_url ;;
  session <- new_session ;;
  check_prefs <- session_get session (u ++ "app/preferences") [] ;;
  if (status_code check_prefs =? 200)%Z then
    set_is_authenticated true ;;
    set_session session
  else if (status_code check_prefs =? 404)%Z then
    set_is_authenticated false ;;
    raise RuntimeError
  else
    set_is_authenticated false.

(** [Client(url)]: lines 13-15 give the new object its [url], the rest of
    the constructor runs on it.  The object is returned together with the
    outcome, also when the constructor raises. *)
Definition __init__ (url0 : string) (w : World)
  : outcome unit * Client * World :=
  let url1 := if negb (endswith url0 "/api/v2/")
              then url0 ++ "/api/v2/" else url0 in
  __init__body (mk_client url1 None None) w.

(** [login], client.py 105-125. *)
Definition login (username password : pyval) : M pyval :=
  s <- new_session ;;
  set_session s ;;
  u <- self_url ;;
  login <- session_post s (u ++ "auth/login")
             (PDict [("username", username); ("password", password)]) [] ;;
  if text login =? "Ok." then
    set_is_authenticated true ;;
    ret PNone
  else ret (PStr (text login)).

(** [logout], client.py 127-133. *)
Definition logout : M pyval :=
  response <- _get "auth/logout" [] ;;
  set_is_authenticated false ;;
  ret response.

(** ** Application, log, sync and transfer methods, client.py 140-346 *)

Definition qbittorrent_version : M pyval := _get "app/version" [].

Definition api_version : M pyval := _get "app/webapiVersion" [].

Definition shutdown : M pyval := _get "app/shutdown" [].

(** [Proxy.__init__], client.py 202-206. *)
Definition Proxy__init__ (url0 : string) (prefs0 : pyval) (auth : bool)
    (session0 : nat) (w : World) : outcome Proxy * World :=
  match __init__ url0 w with
  | (Ret _, c, w') =>
      let r := (set_is_authenticated auth ;; set_session session0) c w' in
      (Ret (mk_proxy (client_of r) prefs0), world_of r)
  | (Raise e, _, w') => (Raise e, w')
  end.

(** [preferences], client.py 160-218. *)
Definition preferences : M Proxy :=
  prefs0 <- _get "app/preferences" [] ;;
  u <- self_url ;;
  auth <- self_is_authenticated ;;
  s <- self_session ;;
  fun c w =>
    let r := Proxy__init__ u prefs0 auth s w in (fst r, c, snd r).

(** [set_preferences], client.py 220-230. *)
Definition set_preferences (kwargs : dict) : M pyval :=
  match json_dumps (PDict kwargs) with
  | Some js =>
      let json_data := "json=" ++ js in
      let headers :=
        PDict [("content-type", PStr "application/x-www-form-urlencoded")] in
      _post "app/setPreferences" (PStr json_data) [("headers", headers)]
  | None => raise TypeError
  end.



Definition Proxy__call__ (p : Proxy) : pyval := prefs p.

Definition get_default_save_path : M pyval := _get "app/defaultSavePath" [].

Definition get_log (normal info warning critical last_known_id : pyval)
  : M pyval :=
  let data := [("normal", normal); ("info", info); ("warning", warning);
               ("critical", critical); ("last_known_id", last_known_id)] in
  _post "log/main" (PDict data) [].

Definition get_peer_log (last_known_id : pyval) : M pyval :=
  let data := [("last_known_id", last_known_id)] in
  _post "log/peers" (PDict data) [].

Definition get_sync_maindata (rid : pyval) : M pyval :=
  _get "sync/maindata" [("params", PDict [("rid", rid)])].

Definition get_sync_torrentPeers (hash rid : pyval) : M pyval :=
  _get "sync/torrentPeers" [("params", PDict [("hash", hash); ("rid", rid)])].

Definition global_transfer_info : M pyval := _get "transfer/info" [].

Definition get_alternative_speed_status : M pyval :=
  _get "transfer/speedLimitsMode" [].

Definition toggle_alternative_speed : M pyval :=
  _get "transfer/toggleSpeedLimitsMode" [].

Definition get_global_download_limit : M pyval :=
  _get "transfer/downloadLimit" [].

Definition set_global_download_limit (limit : pyval) : M pyval :=
  _post "transfer/setDownloadLimit" (PDict [("limit", limit)]) [].

Definition get_global_upload_limit : M pyval := _get "transfer/uploadLimit" [].

Definition set_global_upload_limit (limit : pyval) : M pyval :=
  _post "transfer/setUploadLimit" (PDict [("limit", limit)]) [].

(** ** Torrent management methods, client.py 354-801 *)

Definition torrents (filters : dict) : M pyval :=
  let params := torrents_params filters in
  _get "torrents/info" [("params", PDict params)].

Definition get_torrent (infohash : pyval) : M pyval :=
  _post "torrents/properties" (PDict [("hash", infohash)]) [].

Definition get_torrent_trackers (infohash : pyval) : M pyval :=
  _post "torrents/trackers" (PDict [("hash", infohash)]) [].

Definition get_torrent_webseeds (infohash : pyval) : M pyval :=
  _post "torrents/webseeds" (PDict [("hash", infohash)]) [].

Definition get_torrent_files (infohash : pyval) : M pyval :=
  _post "torrents/files" (PDict [("hash", infohash)]) [].

Definition get_torrent_pieces_state (infohash : pyval) : M pyval :=
  _post "torrents/pieceStates" (PDict [("hash", infohash)]) [].

Definition get_torrent_pieces_hashes (infohash : pyval) : M pyval :=
  _post "torrents/pieceHashes" (PDict [("hash", infohash)]) [].

Definition pause (infohash_list : pyval) : M pyval :=
  data <- lift (_process_infohash_list infohash_list) ;;
  _post "torrents/pause" (PDict data) [].

Definition pause_all : M pyval :=
  _post "torrents/pause" (PDict [("hashes", PStr "all")]) [].

Definition resume (infohash_list : pyval) : M pyval :=
  data <- lift (_process_infohash_list infohash_list) ;;
  _post "torrents/resume" (PDict data) [].

Definition resume_all : M pyval :=
  _post "torrents/resume" (PDict [("hashes", PStr "all")]) [].

Definition delete (infohash_list : pyval) : M pyval :=
  data <- lift (_process_infohash_list infohash_list) ;;
  let data := dict_set "deleteFiles" (PBool false) data in
  _post "torrents/delete" (PDict data) [].

Definition delete_permanently (infohash_list : pyval) : M pyval :=
  data <- lift (_process_infohash_list infohash_list) ;;
  let data := dict_set "deleteFiles" (PBool true) data in
  _post "torrents/delete" (PDict data) [].

Definition recheck (infohash_list : pyval) : M pyval :=
  data <- lift (_process_infohash_list infohash_list) ;;
  _post "torrents/recheck" (PDict data) [].

Definition recheck_all : M pyval :=
  _post "torrents/recheck" (PDict [("hashes", PStr "all")]) [].

Definition reannounce (infohash_list : pyval) : M pyval :=
  data <- lift (_process_infohash_list infohash_list) ;;
  _post "torrents/reannounce" (PDict data) [].

Definition reannounce_all : M pyval :=
  _post "torrents/reannounce" (PDict [("hashes", PStr "all")]) [].

(** [download_from_link], client.py 503-531. *)
Definition download_from_link (link : pyval) (kwargs : dict) : M pyval :=
  options <- lift (download_from_link_options link kwargs) ;;
  let dummy_file := PDict [("_dummy", PTuple [PNone; PStr "_dummy"])] in
  _post "torrents/add" (PDict options) [("files", dummy_file)].

(** ['torrents%s' % i] *)
Definition torrents_key (i : nat) : string :=
  "torrents" ++ NilEmpty.string_of_uint (Nat.to_uint i).

(** The loop over [enumerate(file_buffer)], client.py 544-546. *)
Fixpoint enumerate_files (i : nat) (fs : list pyval) (torrent_files : dict)
  : dict :=
  match fs with
  | [] => torrent_files
  | f :: rest =>
      enumerate_files (S i) rest
        (dict_update torrent_files [(torrents_key i, f)])
  end.

(** [download_from_file], client.py 533-554. *)
Definition download_from_file (file_buffer : pyval) (kwargs : dict)
  : M pyval :=
  let torrent_files :=
    match file_buffer with
    | PList fs => enumerate_files 0 fs []
    | other => [("torrents", other)]
    end in
  let data := kwargs in
  let data :=
    if truthy (dict_get_default "save_path" data)
    then dict_update data [("savepath", dict_get_default "save_path" data)]
    else data in
  _post "torrents/add" (PDict data) [("files", PDict torrent_files)].

Definition add_trackers (infohash trackers : pyval) : M pyval :=
  h <- lift (py_lower infohash) ;;
  let data := [("hash", PStr h); ("urls", trackers)] in
  _post "torrents/addTrackers" (PDict data) [].

Definition increase_priority (infohash_list : pyval) : M pyval :=
  data <- lift (_process_infohash_list infohash_list) ;;
  _post "torrents/increasePrio" (PDict data) [].

Definition decrease_priority (infohash_list : pyval) : M pyval :=
  data <- lift (_process_infohash_list infohash_list) ;;
  _post "torrents/decreasePrio" (PDict data) [].

Definition set_max_priority (infohash_list : pyval) : M pyval :=
  data <- lift (_process_infohash_list infohash_list) ;;
  _post "torrents/topPrio" (PDict data) [].

Definition set_min_priority (infohash_list : pyval) : M pyval :=
  data <- lift (_process_infohash_list infohash_list) ;;
  _post "torrents/bottomPrio" (PDict data) [].

(** [set_file_priority], client.py 603-620. *)
Definition set_file_priority (infohash file_id priority : pyval) : M pyval :=
  if negb (py_in_ints priority [0; 1; 2; 7]%Z) then raise ValueError
  else if negb (isinstance_int file_id) then raise TypeError
  else
    h <- lift (py_lower infohash) ;;
    let data := [("hash", PStr h); ("id", file_id); ("priority", priority)] in
    _post "torrents/filePrio" (PDict data) [].

Definition get_torrent_download_limit (infohash_list : pyval) : M pyval :=
  data <- lift (_process_infohash_list infohash_list) ;;
  _post "torrents/downloadLimit" (PDict data) [].

Definition set_torrent_download_limit (infohash_list limit : pyval)
  : M pyval :=
  data <- lift (_process_infohash_list infohash_list) ;;
  let data := dict_update data [("limit", limit)] in
  _post "torrents/setDownloadLimit" (PDict data) [].

Definition set_torrent_share_limit
    (infohash_list ratioLimit seedingTimeLimit : pyval) : M pyval :=
  data <- lift (_process_infohash_list infohash_list) ;;
  let data := dict_update data [("ratioLimit", ratioLimit);
                                ("seedingTimeLimit", seedingTimeLimit)] in
  _post "torrents/setShareLimits" (PDict data) [].

Definition get_torrent_upload_limit (infohash_list : pyval) : M pyval :=
  data <- lift (_process_infohash_list infohash_list) ;;
  _post "torrents/uploadLimit" (PDict data) [].

Definition set_torrent_upload_limit (infohash_list limit : pyval) : M pyval :=
  data <- lift (_process_infohash_list infohash_list) ;;
  let data := dict_update data [("limit", limit)] in
  _post "torrents/setUploadLimit" (PDict data) [].

Definition set_location (infohash_list location : pyval) : M pyval :=
  data <- lift (_process_infohash_list infohash_list) ;;
  let data := dict_update data [("location", location)] in
  _post "torrents/setLocation" (PDict data) [].

Definition set_torrent_name (infohash name : pyval) : M pyval :=
  let data := [("hash", infohash); ("name", name)] in
  _post "torrents/rename" (PDict data) [].

Definition set_category (infohash_list category : pyval) : M pyval :=
  data <- lift (_process_infohash_list infohash_list) ;;
  let data := dict_set "category" category data in
  _post "torrents/setCategory" (PDict data) [].

Definition add_category (category : pyval) : M pyval :=
  _post "torrents/createCategory" (PDict [("category", category)]) [].

Definition edit_category (category savePath : pyval) : M pyval :=
  let data := [("category", category); ("savePath", savePath)] in
  _post "torrents/editCategory" (PDict data) [].

(** [remove_category], client.py 724-734. *)
Definition remove_category (category_list : pyval) : M pyval :=
  data <- lift (match category_list with
                | PList l =>
                    match lower_each l with
                    | Ret hs => Ret [("categories", PStr (join "%0A" hs))]
                    | Raise e => Raise e
                    end
                | other =>
                    match py_lower other with
                    | Ret h => Ret [("categories", PStr h)]
                    | Raise e => Raise e
                    end
                end) ;;
  _post "torrents/removeCategories" (PDict data) [].

Definition set_automatic_torrent (infohash_list enable : pyval) : M pyval :=
  data <- lift (_process_infohash_list infohash_list) ;;
  let data := dict_set "enable" enable data in
  _post "torrents/setAutoManagement" (PDict data) [].

Definition set_automatic_torrent_all (enable : pyval) : M pyval :=
  _post "torrents/setAutoManagement"
    (PDict [("hashes", PStr "all"); ("enable", enable)]) [].

Definition toggle_sequential_download (infohash_list : pyval) : M pyval :=
  data <- lift (_process_infohash_list infohash_list) ;;
  _post "torrents/toggleSequentialDownload" (PDict data) [].

Definition toggle_first_last_piece_priority (infohash_list : pyval)
  : M pyval :=
  data <- lift (_process_infohash_list infohash_list) ;;
  _post "torrents/toggleFirstLastPiecePrio" (PDict data) [].

Definition force_start (infohash_list value : pyval) : M pyval :=
  data <- lift (_process_infohash_list infohash_list) ;;
  match json_dumps value with
  | Some js =>
      let data := dict_update data [("value", PStr js)] in
      _post "torrents/setForceStart" (PDict data) []
  | None => raise TypeError
  end.

Definition set_super_seeding (infohash_list value : pyval) : M pyval :=
  data <- lift (_process_infohash_list infohash_list) ;;
  let data := dict_set "value" value data in
  _post "torrents/setSuperSeeding" (PDict data) [].

Definition set_super_seeding_all (value : pyval) : M pyval :=
  _post "torrents/setSuperSeeding"
    (PDict [("hashes", PStr "all"); ("value", value)]) [].

(** ** RSS methods, client.py 820-888 *)

Definition add_folder (path : pyval) : M pyval :=
  _post "rss/addFolder" (PDict [("path", path)]) [].

Definition add_feed (url0 path : pyval) : M pyval :=
  let data := [("url", url0); ("path", path)] in
  _post "rss/addFeed" (PDict data) [].

Definition remove_item (path : pyval) : M pyval :=
  _post "rss/addFeed" (PDict [("path", path)]) [].

Definition get_item (withData : pyval) : M pyval :=
  _get "rss/items" [("data", PDict [("withData", withData)])].

Definition set_rule (ruleName ruleDef : pyval) : M pyval :=
  let data := [("ruleName", ruleName); ("ruleDef", ruleDef)] in
  _post "rss/setRule" (PDict data) [].

Definition rename_rule (ruleName newRuleName : pyval) : M pyval :=
  let data := [("ruleName", ruleName); ("newRuleName", newRuleName)] in
  _post "rss/renameRule" (PDict data) [].

Definition remove_rule (ruleName : pyval) : M pyval :=
  _post "rss/removeRule" (PDict [("ruleName", ruleName)]) [].

Definition get_rules : M pyval := _get "rss/rules" [].

(** Running a call on [self]. *)
Definition run_call (op : call) : M retval :=
  match op with
  | Call_login username password => v <- login username password ;; ret (RVal v)
  | Call_logout => v <- logout ;; ret (RVal v)
  | Call_qbittorrent_version => v <- qbittorrent_version ;; ret (RVal v)
  | Call_api_version => v <- api_version ;; ret (RVal v)
  | Call_shutdown => v <- shutdown ;; ret (RVal v)
  | Call_preferences => p <- preferences ;; ret (RProxy p)
  | Call_set_preferences kwargs => v <- set_preferences kwargs ;; ret (RVal v)
  | Call_get_default_save_path => v <- get_default_save_path ;; ret (RVal v)
  | Call_get_log normal info warning critical last_known_id =>
      v <- get_log normal info warning critical last_known_id ;; ret (RVal v)
  | Call_get_peer_log last_known_id =>
      v <- get_peer_log last_known_id ;; ret (RVal v)
  | Call_get_sync_maindata rid => v <- get_sync_maindata rid ;; ret (RVal v)
  | Call_get_sync_torrentPeers hash rid =>
      v <- get_sync_torrentPeers hash rid ;; ret (RVal v)
  | Call_global_transfer_info => v <- global_transfer_info ;; ret (RVal v)
  | Call_get_alternative_speed_status =>
      v <- get_alternative_speed_status ;; ret (RVal v)
  | Call_toggle_alternative_speed =>
      v <- toggle_alternative_speed ;; ret (RVal v)
  | Call_get_global_download_limit =>
      v <- get_global_download_limit ;; ret (RVal v)
  | Call_set_global_download_limit limit =>
      v <- set_global_download_limit limit ;; ret (RVal v)
  | Call_get_global_upload_limit => v <- get_global_upload_limit ;; ret (RVal v)
  | Call_set_global_upload_limit limit =>
      v <- set_global_upload_limit limit ;; ret (RVal v)
  | Call_torrents filters => v <- torrents filters ;; ret (RVal v)
  | Call_get_torrent infohash => v <- get_torrent infohash ;; ret (RVal v)
  | Call_get_torrent_trackers infohash =>
      v <- get_torrent_trackers infohash ;; ret (RVal v)
  | Call_get_torrent_webseeds infohash =>
      v <- get_torrent_webseeds infohash ;; ret (RVal v)
  | Call_get_torrent_files infohash =>
      v <- get_torrent_files infohash ;; ret (RVal v)
  | Call_get_torrent_pieces_state infohash =>
      v <- get_torrent_pieces_state infohash ;; ret (RVal v)
  | Call_get_torrent_pieces_hashes infohash =>
      v <- get_torrent_pieces_hashes infohash ;; ret (RVal v)
  | Call_pause infohash_list => v <- pause infohash_list ;; ret (RVal v)
  | Call_pause_all => v <- pause_all ;; ret (RVal v)
  | Call_resume infohash_list => v <- resume infohash_list ;; ret (RVal v)
  | Call_resume_all => v <- resume_all ;; ret (RVal v)
  | Call_delete infohash_list => v <- delete infohash_list ;; ret (RVal v)
  | Call_delete_permanently infohash_list =>
      v <- delete_permanently infohash_list ;; ret (RVal v)
  | Call_recheck infohash_list => v <- recheck infohash_list ;; ret (RVal v)
  | Call_recheck_all => v <- recheck_all ;; ret (RVal v)
  | Call_reannounce infohash_list =>
      v <- reannounce infohash_list ;; ret (RVal v)
  | Call_reannounce_all => v <- reannounce_all ;; ret (RVal v)
  | Call_download_from_link link kwargs =>
      v <- download_from_link link kwargs ;; ret (RVal v)
  | Call_download_from_file file_buffer kwargs =>
      v <- download_from_file file_buffer kwargs ;; ret (RVal v)
  | Call_add_trackers infohash trackers =>
      v <- add_trackers infohash trackers ;; ret (RVal v)
  | Call_increase_priority infohash_list =>
      v <- increase_priority infohash_list ;; ret (RVal v)
  | Call_decrease_priority infohash_list =>
      v <- decrease_priority infohash_list ;; ret (RVal v)
  | Call_set_max_priority infohash_list =>
      v <- set_max_priority infohash_list ;; ret (RVal v)
  | Call_set_min_priority infohash_list =>
      v <- set_min_priority infohash_list ;; ret (RVal v)
  | Call_set_file_priority infohash file_id priority =>
      v <- set_file_priority infohash file_id priority ;; ret (RVal v)
  | Call_get_torrent_download_limit infohash_list =>
      v <- get_torrent_download_limit infohash_list ;; ret (RVal v)
  | Call_set_torrent_download_limit infohash_list limit =>
      v <- set_torrent_download_limit infohash_list limit ;; ret (RVal v)
  | Call_set_torrent_share_limit infohash_list ratioLimit seedingTimeLimit =>
      v <- set_torrent_share_limit infohash_list ratioLimit seedingTimeLimit ;;
      ret (RVal v)
  | Call_get_torrent_upload_limit infohash_list =>
      v <- get_torrent_upload_limit infohash_list ;; ret (RVal v)
  | Call_set_torrent_upload_limit infohash_list limit =>
      v <- set_torrent_upload_limit infohash_list limit ;; ret (RVal v)
  | Call_set_location infohash_list location =>
      v <- set_location infohash_list location ;; ret (RVal v)
  | Call_set_torrent_name infohash name =>
      v <- set_torrent_name infohash name ;; ret (RVal v)
  | Call_set_category infohash_list category =>
      v <- set_category infohash_list category ;; ret (RVal v)
  | Call_add_category category => v <- add_category category ;; ret (RVal v)
  | Call_edit_category category savePath =>
      v <- edit_category category savePath ;; ret (RVal v)
  | Call_remove_category category_list =>
      v <- remove_category category_list ;; ret (RVal v)
  | Call_set_automatic_torrent infohash_list enable =>
      v <- set_automatic_torrent infohash_list enable ;; ret (RVal v)
  | Call_set_automatic_torrent_all enable =>
      v <- set_automatic_torrent_all enable ;; ret (RVal v)
  | Call_toggle_sequential_download infohash_list =>
      v <- toggle_sequential_download infohash_list ;; ret (RVal v)
  | Call_toggle_first_last_piece_priority infohash_list =>
      v <- toggle_first_last_piece_priority infohash_list ;; ret (RVal v)
  | Call_force_start infohash_list value =>
      v <- force_start infohash_list value ;; ret (RVal v)
  | Call_set_super_seeding infohash_list value =>
      v <- set_super_seeding infohash_list value ;; ret (RVal v)
  | Call_set_super_seeding_all value =>
      v <- set_super_seeding_all value ;; ret (RVal v)
  | Call_add_folder path => v <- add_folder path ;; ret (RVal v)
  | Call_add_feed url0 path => v <- add_feed url0 path ;; ret (RVal v)
  | Call_remove_item path => v <- remove_item path ;; ret (RVal v)
  | Call_get_item withData => v <- get_item withData ;; ret (RVal v)
  | Call_set_rule ruleName ruleDef =>
      v <- set_rule ruleName ruleDef ;; ret (RVal v)
  | Call_rename_rule ruleName newRuleName =>
      v <- rename_rule ruleName newRuleName ;; ret (RVal v)
  | Call_remove_rule ruleName => v <- remove_rule ruleName ;; ret (RVal v)
  | Call_get_rules => v <- get_rules ;; ret (RVal v)
  end.

End Wrapper.

(** ** Statements used by the theorems *)

(** The lowercased hashes written out left to right with a bar before each
    hash but the first: [h1.lower() + '|' + ... + '|' + hn.lower()]. *)
Definition bar_separated (l : list string) : string :=
  match l with
  | [] => ""
  | h :: t => fold_left (fun acc x => acc ++ "|" ++ lower x) t (lower h)
  end.


(** The requests a run added to the record. *)
Definition dispatched (before after : World) (new : list http_request) : Prop :=
  sent after = (new ++ sent before)%list.

(** A computation that leaves [self.url] alone and sends requests only to
    URLs that extend it. *)
Definition keeps_url {A : Type} (m : M A) : Prop :=
  forall c w,
    url (client_of (m c w)) = url c /\
    exists new,
      dispatched w (world_of (m c w)) new /\
      Forall (fun rq => exists endpoint, rq_url rq = url c ++ endpoint) new.

(** The same for the objects whose [url] is [base], with the endpoints the
    requests may go to. *)
Definition sends_to {A : Type} (ok : string -> Prop) (base : string)
    (m : M A) : Prop :=
  forall c w,
    url c = base ->
    url (client_of (m c w)) = base /\
    exists new,
      dispatched w (world_of (m c w)) new /\
      Forall (fun rq => exists endpoint,
                  ok endpoint /\ rq_url rq = base ++ endpoint) new.

(** The endpoint each public method is written for. *)
Definition endpoint_of (op : call) : string :=
  match op with
  | Call_login _ _ => "auth/login"
  | Call_logout => "auth/logout"
  | Call_qbittorrent_version => "app/version"
  | Call_api_version => "app/webapiVersion"
  | Call_shutdown => "app/shutdown"
  | Call_preferences => "app/preferences"
  | Call_set_preferences _ => "app/setPreferences"
  | Call_get_default_save_path => "app/defaultSavePath"
  | Call_get_log _ _ _ _ _ => "log/main"
  | Call_get_peer_log _ => "log/peers"
  | Call_get_sync_maindata _ => "sync/maindata"
  | Call_get_sync_torrentPeers _ _ => "sync/torrentPeers"
  | Call_global_transfer_info => "transfer/info"
  | Call_get_alternative_speed_status => "transfer/speedLimitsMode"
  | Call_toggle_alternative_speed => "transfer/toggleSpeedLimitsMode"
  | Call_get_global_download_limit => "transfer/downloadLimit"
  | Call_set_global_download_limit _ => "transfer/setDownloadLimit"
  | Call_get_global_upload_limit => "transfer/uploadLimit"
  | Call_set_global_upload_limit _ => "transfer/setUploadLimit"
  | Call_torrents _ => "torrents/info"
  | Call_get_torrent _ => "torrents/properties"
  | Call_get_torrent_trackers _ => "torrents/trackers"
  | Call_get_torrent_webseeds _ => "torrents/webseeds"
  | Call_get_torrent_files _ => "torrents/files"
  | Call_get_torrent_pieces_state _ => "torrents/pieceStates"
  | Call_get_torrent_pieces_hashes _ => "torrents/pieceHashes"
  | Call_pause _ | Call_pause_all => "torrents/pause"
  | Call_resume _ | Call_resume_all => "torrents/resume"
  | Call_delete _ | Call_delete_permanently _ => "torrents/delete"
  | Call_recheck _ | Call_recheck_all => "torrents/recheck"
  | Call_reannounce _ | Call_reannounce_all => "torrents/reannounce"
  | Call_download_from_link _ _ | Call_download_from_file _ _ =>
      "torrents/add"
  | Call_add_trackers _ _ => "torrents/addTrackers"
  | Call_increase_priority _ => "torrents/increasePrio"
  | Call_decrease_priority _ => "torrents/decreasePrio"
  | Call_set_max_priority _ => "torrents/topPrio"
  | Call_set_min_priority _ => "torrents/bottomPrio"
  | Call_set_file_priority _ _ _ => "torrents/filePrio"
  | Call_get_torrent_download_limit _ => "torrents/downloadLimit"
  | Call_set_torrent_download_limit _ _ => "torrents/setDownloadLimit"
  | Call_set_torrent_share_limit _ _ _ => "torrents/setShareLimits"
  | Call_get_torrent_upload_limit _ => "torrents/uploadLimit"
  | Call_set_torrent_upload_limit _ _ => "torrents/setUploadLimit"
  | Call_set_location _ _ => "torrents/setLocation"
  | Call_set_torrent_name _ _ => "torrents/rename"
  | Call_set_category _ _ => "torrents/setCategory"
  | Call_add_category _ => "torrents/createCategory"
  | Call_edit_category _ _ => "torrents/editCategory"
  | Call_remove_category _ => "torrents/removeCategories"
  | Call_set_automatic_torrent _ _ | Call_set_automatic_torrent_all _ =>
      "torrents/setAutoManagement"
  | Call_toggle_sequential_download _ => "torrents/toggleSequentialDownload"
  | Call_toggle_first_last_piece_priority _ =>
      "torrents/toggleFirstLastPiecePrio"
  | Call_force_start _ _ => "torrents/setForceStart"
  | Call_set_super_seeding _ _ | Call_set_super_seeding_all _ =>
      "torrents/setSuperSeeding"
  | Call_add_folder _ => "rss/addFolder"
  | Call_add_feed _ _ => "rss/addFeed"
  | Call_remove_item _ => "rss/addFeed"
  | Call_get_item _ => "rss/items"
  | Call_set_rule _ _ => "rss/setRule"
  | Call_rename_rule _ _ => "rss/renameRule"
  | Call_remove_rule _ => "rss/removeRule"
  | Call_get_rules => "rss/rules"
  end.

(** The request [_request] hands to the session [sid] of a client whose
    [url] is [base]. *)
Definition request_sent (sid : nat) (base endpoint method : string)
    (data : pyval) (kwargs : dict) : http_request :=
  if method =? "get"
  then mk_request sid GET (base ++ endpoint) None kwargs
  else mk_request sid POST (base ++ endpoint) (Some data) kwargs.

(** The objects a program can hold: one built by the constructor (however
    it ended), one on which a method has run, or the [Proxy] returned by
    [preferences]. *)
Section Reachable.

Variable server : list http_request -> http_request -> net_outcome.
Variable json_loads : string -> option pyval.
Variable json_dumps : pyval -> option string.

Inductive reachable : Client -> Prop :=
| reach_init (url0 : string) (w : World) :
    reachable (client_of (__init__ server url0 w))
| reach_call (op : call) (c : Client) (w : World) :
    reachable c ->
    reachable (client_of (run_call server json_loads json_dumps op c w))
| reach_proxy (c : Client) (w : World) (p : Proxy) :
    reachable c ->
    result_of (preferences server json_loads c w) = Ret p ->
    reachable (proxy_client p).

End Reachable.

(** ** Classes of calls and of computations *)

(** The calls that assign attributes of [self]: [login] (lines 118, 123)
    and [logout] (line 132). *)
Definition assigns_attributes (op : call) : bool :=
  match op with
  | Call_login _ _ | Call_logout => true
  | _ => false
  end.

Definition is_login (op : call) : bool :=
  match op with
  | Call_login _ _ => true
  | _ => false
  end.

Definition is_preferences (op : call) : bool :=
  match op with
  | Call_preferences => true
  | _ => false
  end.

(** The most requests a call sends: [preferences] also runs the
    constructor of its [Proxy]. *)
Definition request_budget (op : call) : nat :=
  match op with
  | Call_preferences => 2
  | _ => 1
  end.

(** The exceptions that come from the exchange with the server: no
    connection, or an error status turned into [HTTPError]. *)
Definition transport_error (e : exn) : bool :=
  match e with
  | ConnectionError => true
  | HTTPError st => ((400 <=? st) && (st <? 600))%Z
  | _ => false
  end.

(** The exceptions of [_request] once its request has been sent: those of
    the transport, and what [json.loads('{}')] on line 92 raises. *)
Definition response_error (e : exn) : bool :=
  transport_error e || match e with ValueError => true | _ => false end.

(** A computation that leaves the object as it is and sends at most [n]
    requests, all on the session of the object. *)
Definition frames {A : Type} (n : nat) (m : M A) : Prop :=
  forall c w,
    client_of (m c w) = c /\
    exists new,
      dispatched w (world_of (m c w)) new /\
      List.length new <= n /\
      Forall (fun rq => session c = Some (rq_session rq)) new.

(** A computation that, on an object that is not logged in, raises and
    changes nothing. *)
Definition refuses {A : Type} (m : M A) : Prop :=
  forall c w,
    _is_authenticated c = Some false ->
    exists e, m c w = (Raise e, c, w).

(** A computation whose exceptions, once a request has been sent, are among
    [allowed]. *)
Definition orderly {A : Type} (allowed : exn -> bool) (m : M A) : Prop :=
  forall c w e,
    result_of (m c w) = Raise e ->
    sent (world_of (m c w)) = sent w \/ allowed e = true.

(** A computation that sends nothing. *)
Definition sends_nothing {A : Type} (m : M A) : Prop :=
  forall c w, sent (world_of (m c w)) = sent w.

(** A computation that returns. *)
Definition never_raises {A : Type} (m : M A) : Prop :=
  forall c w, exists a, result_of (m c w) = Ret a.

(** The files of [download_from_file] for a list: the [i]-th file under
    the key ['torrents<i>'], counting from [start]. *)
Fixpoint numbered_files (start : nat) (fs : list pyval) : dict :=
  match fs with
  | [] => []
  | f :: rest =>
      ("torrents" ++ NilEmpty.string_of_uint (Nat.to_uint start), f)
        :: numbered_files (S start) rest
  end.

(** ** The [Proxy] as an object *)

Section ProxyObject.

Variable server : list http_request -> http_request -> net_outcome.
Variable json_loads : string -> option pyval.
Variable json_dumps : pyval -> option string.


End ProxyObject.

(** ** A sample environment *)

(** A server that gives the same answer to every request. *)
Definition const_server (r : http_response)
  : list http_request -> http_request -> net_outcome :=
  fun _ _ => Responded r.

(** A reader for a few JSON texts, enough to run the examples. *)
Definition sample_json_loads (s : string) : option pyval :=
  if s =? "{}" then Some (PDict [])
  else if s =? "[]" then Some (PList [])
  else if s =? "null" then Some PNone
  else if s =? "true" then Some (PBool true)
  else if s =? "false" then Some (PBool false)
  else None.

Definition sample_json_dumps (v : pyval) : option string :=
  match v with
  | PNone => Some "null"
  | PBool true => Some "true"
  | PBool false => Some "false"
  | PDict [] => Some "{}"
  | PList [] => Some "[]"
  | _ => None
  end.

Definition fresh_world : World := mk_world [] 0.

(** A client that is logged in on session 0, and one that is not. *)
Definition logged_in : Client :=
  mk_client "http://localhost:8080/api/v2/" (Some true) (Some 0).

Definition logged_out : Client :=
  mk_client "http://localhost:8080/api/v2/" (Some false) None.

Definition one_session : World := mk_world [] 1.

(** * Properties *)

(** ** Strings *)

Lemma length_app (a b : string) :
  String.length (a ++ b) = String.length a + String.length b.
Proof.
  induction a as [|ch a IH]; simpl; [reflexivity | now rewrite IH].
Qed.

Lemma substring_whole (s : string) : substring 0 (String.length s) s = s.
Proof.
  induction s as [|ch s IH]; simpl; [reflexivity | now rewrite IH].
Qed.

Lemma substring_app_tail (a b : string) :
  substring (String.length a) (String.length b) (a ++ b) = b.
Proof.
  induction a as [|ch a IH]; simpl.
  - apply substring_whole.
  - exact IH.
Qed.

Lemma substring_split (n : nat) :
  forall s, n <= String.length s ->
    s = substring 0 n s ++ substring n (String.length s - n) s.
Proof.
  induction n as [|n IH]; intros s Hn.
  - rewrite Nat.sub_0_r, substring_whole. now destruct s.
  - destruct s as [|ch s]; simpl in Hn; [lia|].
    simpl. f_equal. apply IH. lia.
Qed.

Lemma endswith_app (a suffix : string) : endswith (a ++ suffix) suffix = true.
Proof.
  unfold endswith. rewrite length_app.
  replace (String.length a + String.length suffix - String.length suffix)
    with (String.length a) by lia.
  rewrite substring_app_tail, String.eqb_refl, andb_true_r.
  apply Nat.leb_le. lia.
Qed.

Lemma endswith_spec (s suffix : string) :
  endswith s suffix = true <-> exists p, s = p ++ suffix.
Proof.
  split.
  - unfold endswith. intros H. apply andb_prop in H as [Hlen Heq].
    apply Nat.leb_le in Hlen. apply String.eqb_eq in Heq.
    exists (substring 0 (String.length s - String.length suffix) s).
    pose proof (substring_split (String.length s - String.length suffix) s)
      as Hsplit.
    replace (String.length s - (String.length s - String.length suffix))
      with (String.length suffix) in Hsplit by lia.
    rewrite Heq in Hsplit. apply Hsplit. lia.
  - intros [p ->]. apply endswith_app.
Qed.

Lemma app_assoc_str (a b c : string) : (a ++ b) ++ c = a ++ (b ++ c).
Proof.
  induction a as [|ch a IH]; simpl; [reflexivity | now rewrite IH].
Qed.

(** ** Dictionaries *)

Lemma dict_get_set_same (k : string) (v : pyval) (d : dict) :
  dict_get k (dict_set k v d) = Some v.
Proof.
  induction d as [|[k' v'] d IH]; simpl.
  - now rewrite String.eqb_refl.
  - destruct (k' =? k) eqn:E; simpl.
    + now rewrite String.eqb_refl.
    + now rewrite E.
Qed.

Lemma dict_get_set_other (k k0 : string) (v : pyval) (d : dict) :
  k0 <> k -> dict_get k (dict_set k0 v d) = dict_get k d.
Proof.
  intros Hne. induction d as [|[k' v'] d IH]; simpl.
  - apply String.eqb_neq in Hne. now rewrite Hne.
  - destruct (k' =? k0) eqn:E; simpl.
    + apply String.eqb_eq in E. subst k'.
      apply String.eqb_neq in Hne. now rewrite Hne.
    + destruct (k' =? k); [reflexivity | exact IH].
Qed.

Lemma dict_get_del_same (k : string) (d : dict) :
  dict_get k (dict_del k d) = None.
Proof.
  induction d as [|[k' v'] d IH]; simpl; [reflexivity|].
  destruct (k' =? k) eqn:E; simpl; [exact IH | now rewrite E].
Qed.

Lemma dict_get_del_other (k k0 : string) (d : dict) :
  k0 <> k -> dict_get k (dict_del k0 d) = dict_get k d.
Proof.
  intros Hne. induction d as [|[k' v'] d IH]; simpl; [reflexivity|].
  destruct (k' =? k0) eqn:E; simpl.
  - apply String.eqb_eq in E. subst k'.
    apply String.eqb_neq in Hne. now rewrite Hne.
  - destruct (k' =? k); [reflexivity | exact IH].
Qed.



(** ** Info-hash lists *)

Example process_infohash_list_not_a_string :
  _process_infohash_list (PInt 7) = Raise AttributeError.
Proof. reflexivity. Qed.

Lemma lower_each_strings (hs : list string) :
  lower_each (map PStr hs) = Ret (map lower hs).
Proof.
  induction hs as [|h hs IH]; simpl; [reflexivity | now rewrite IH].
Qed.

Lemma join_head_app (sep a b : string) (rest : list string) :
  join sep ((a ++ b) :: rest) = a ++ join sep (b :: rest).
Proof.
  destruct rest as [|x rest]; simpl; [reflexivity|].
  apply app_assoc_str.
Qed.

Lemma fold_bar_join (t : list string) :
  forall a,
    fold_left (fun acc x => acc ++ "|" ++ lower x) t a
    = join "|" (a :: map lower t).
Proof.
  induction t as [|x t IH]; intros a; [reflexivity|].
  cbn [fold_left map]. rewrite IH.
  now rewrite !join_head_app.
Qed.

Lemma join_bar_separated (hs : list string) :
  join "|" (map lower hs) = bar_separated hs.
Proof.
  destruct hs as [|h t]; [reflexivity|].
  unfold bar_separated. now rewrite fold_bar_join.
Qed.

(** C5.  For a list of strings [_process_infohash_list] returns the
    dictionary whose only key ['hashes'] holds the lowercased hashes joined
    by ['|'] (the empty string for the empty list); for a single string it
    holds the lowercased string. *)
Theorem process_infohash_list_spec :
  forall (hs : list string) (h : string),
    _process_infohash_list (PList (map PStr hs))
    = Ret [("hashes", PStr (bar_separated hs))]
    /\ _process_infohash_list (PList []) = Ret [("hashes", PStr "")]
    /\ _process_infohash_list (PStr h) = Ret [("hashes", PStr (lower h))].
Proof.
  intros hs h. repeat split.
  unfold _process_infohash_list.
  now rewrite lower_each_strings, join_bar_separated.
Qed.

(** ** The request helper *)

Section RequestProps.

Variable server : list http_request -> http_request -> net_outcome.
Variable json_loads : string -> option pyval.
Variable json_dumps : pyval -> option string.

Lemma length_zero_empty (s : string) :
  Nat.eqb (String.length s) 0 = true <-> s = "".
Proof.
  destruct s; simpl; split; intros H; try reflexivity; discriminate.
Qed.

(** Without a login the body of [_request] stops at line 78. *)
Lemma _request_logged_out (c : Client) (w : World)
    (endpoint method : string) (data : pyval) (kwargs : dict) :
  _is_authenticated c = Some false ->
  _request server json_loads endpoint method data kwargs c w
  = (Raise LoginRequired, c, w).
Proof.
  intros Hauth.
  unfold _request, bind, self_url, self_is_authenticated.
  now rewrite Hauth.
Qed.

(** With a login exactly one request goes out, and the answer decides the
    rest. *)
Lemma _request_logged_in (c : Client) (w : World) (sid : nat)
    (endpoint method : string) (data : pyval) (kwargs : dict) :
  _is_authenticated c = Some true ->
  session c = Some sid ->
  let rq := request_sent sid (url c) endpoint method data kwargs in
  let w' := mk_world (rq :: sent w) (sessions w) in
  _request server json_loads endpoint method data kwargs c w =
  match server (sent w) rq with
  | Unreachable => (Raise ConnectionError, c, w')
  | Responded r =>
      if is_error_status (status_code r)
      then (Raise (HTTPError (status_code r)), c, w')
      else if Nat.eqb (String.length (text r)) 0
           then match json_loads "{}" with
                | Some v => (Ret v, c, w')
                | None => (Raise ValueError, c, w')
                end
           else match json_loads (text r) with
                | Some v => (Ret v, c, w')
                | None => (Ret (PStr (text r)), c, w')
                end
  end.
Proof.
  intros Hauth Hsess rq w'. subst rq w'.
  unfold _request, request_sent, bind, self_url,
    self_is_authenticated, self_session, session_get, session_post, send,
    raise_for_status, raise, ret.
  cbv beta. rewrite Hauth. cbv beta iota delta [negb]. rewrite Hsess.
  destruct (method =? "get");
    (destruct (server (sent w) _) as [r|]; [|reflexivity]);
    destruct (is_error_status (status_code r)); try reflexivity;
    destruct (Nat.eqb (String.length (text r)) 0);
    destruct (json_loads _); reflexivity.
Qed.

(** The request that a logged-in object sends, whatever comes back. *)
Lemma _request_records (c : Client) (w : World) (sid : nat)
    (endpoint method : string) (data : pyval) (kwargs : dict) :
  _is_authenticated c = Some true ->
  session c = Some sid ->
  sent (world_of (_request server json_loads endpoint method data kwargs c w))
  = request_sent sid (url c) endpoint method data kwargs :: sent w.
Proof.
  intros Hauth Hsess. rewrite (_request_logged_in c w sid) by assumption.
  cbv zeta. destruct (server (sent w) _) as [r|]; [|reflexivity].
  destruct (is_error_status (status_code r)); [reflexivity|].
  destruct (Nat.eqb (String.length (text r)) 0);
    destruct (json_loads _); reflexivity.
Qed.

(** C1.  If [_is_authenticated] is false, [_request] raises
    [LoginRequired] for every endpoint and method, before any GET or POST:
    the object and the record of requests are as they were.  So do [_get]
    and [_post], whose keyword arguments must not repeat a parameter that
    the call already binds; they dispatch nothing in any case. *)
Theorem request_requires_login :
  forall (c : Client) (w : World) (endpoint method : string)
         (data : pyval) (kwargs : dict),
    _is_authenticated c = Some false ->
    _request server json_loads endpoint method data kwargs c w
    = (Raise LoginRequired, c, w)
    /\ (forall kw, clashes ["self"; "endpoint"; "method"] kw = false ->
          _get server json_loads endpoint kw c w = (Raise LoginRequired, c, w))
    /\ (forall kw, clashes ["self"; "endpoint"; "method"; "data"] kw = false ->
          _post server json_loads endpoint data kw c w
          = (Raise LoginRequired, c, w))
    /\ (forall kw,
          world_of (_get server json_loads endpoint kw c w) = w
          /\ world_of (_post server json_loads endpoint data kw c w) = w).
Proof.
  intros c w endpoint method data kwargs Hauth.
  split; [now apply _request_logged_out|].
  split; [|split].
  - intros kw Hkw. unfold _get. rewrite Hkw.
    now apply _request_logged_out.
  - intros kw Hkw. unfold _post. rewrite Hkw.
    now apply _request_logged_out.
  - intros kw. unfold _get, _post. split.
    + destruct (clashes _ kw); [reflexivity|].
      now rewrite _request_logged_out.
    + destruct (clashes _ kw); [reflexivity|].
      now rewrite _request_logged_out.
Qed.

(** C3.  When the answer to an authenticated request has a status from 400
    to 599, [_request] raises the HTTP error of [raise_for_status]: nothing
    is decoded, the one request stays the only one sent, and the object is
    as it was. *)
Theorem request_surfaces_http_error :
  forall (c : Client) (w : World) (sid : nat) (endpoint method : string)
         (data : pyval) (kwargs : dict) (r : http_response),
    _is_authenticated c = Some true ->
    session c = Some sid ->
    server (sent w) (request_sent sid (url c) endpoint method data kwargs)
    = Responded r ->
    is_error_status (status_code r) = true ->
    _request server json_loads endpoint method data kwargs c w
    = (Raise (HTTPError (status_code r)), c,
       mk_world
         (request_sent sid (url c) endpoint method data kwargs :: sent w)
         (sessions w)).
Proof.
  intros c w sid endpoint method data kwargs r Hauth Hsess Hresp Herr.
  rewrite (_request_logged_in c w sid) by assumption.
  cbv zeta. now rewrite Hresp, Herr.
Qed.

(** C2, as amended.  When the answer to an authenticated request has no
    error status: an empty body gives the empty dictionary (what parsing
    ['{}'] gives), a body that parses as JSON gives the parsed value, and
    any other body is returned as the text it is.  Of [json.loads] the
    theorem uses that ['{}'] is the empty dictionary and that the empty
    string is no JSON text. *)
Theorem request_decodes_response :
  forall (c : Client) (w : World) (sid : nat) (endpoint method : string)
         (data : pyval) (kwargs : dict) (r : http_response),
    _is_authenticated c = Some true ->
    session c = Some sid ->
    server (sent w) (request_sent sid (url c) endpoint method data kwargs)
    = Responded r ->
    is_error_status (status_code r) = false ->
    json_loads "{}" = Some (PDict []) ->
    json_loads "" = None ->
    (text r = "" ->
       result_of (_request server json_loads endpoint method data kwargs c w)
       = Ret (PDict []))
    /\ (forall v, json_loads (text r) = Some v ->
          result_of (_request server json_loads endpoint method data kwargs c w)
          = Ret v)
    /\ (text r <> "" -> json_loads (text r) = None ->
          result_of (_request server json_loads endpoint method data kwargs c w)
          = Ret (PStr (text r))).
Proof.
  intros c w sid endpoint method data kwargs r Hauth Hsess Hresp Hok
    Hbraces Hnothing.
  rewrite (_request_logged_in c w sid) by assumption.
  cbv zeta. rewrite Hresp, Hok.
  destruct (Nat.eqb (String.length (text r)) 0) eqn:Hlen.
  - apply length_zero_empty in Hlen. rewrite Hbraces, Hlen.
    split; [reflexivity|]. split.
    + intros v Hv. congruence.
    + intros Hne. contradiction.
  - assert (text r <> "") as Hne.
    { intros E. apply length_zero_empty in E. congruence. }
    split; [intros E; contradiction|]. split.
    + intros v Hv. now rewrite Hv.
    + intros _ Hnone. now rewrite Hnone.
Qed.

(** C7.  An authenticated [_request] sends its one request with
    [session.get] when [method] is ['get'] and with [session.post], carrying
    [data], for any other [method]; [_get] passes ['get'] and [_post] passes
    ['post']. *)
Theorem request_routes_by_method :
  forall (c : Client) (w : World) (sid : nat) (endpoint method : string)
         (data : pyval) (kwargs : dict),
    _is_authenticated c = Some true ->
    session c = Some sid ->
    (method = "get" ->
       sent (world_of
               (_request server json_loads endpoint method data kwargs c w))
       = mk_request sid GET (url c ++ endpoint) None kwargs :: sent w)
    /\ (method <> "get" ->
          sent (world_of
                  (_request server json_loads endpoint method data kwargs c w))
          = mk_request sid POST (url c ++ endpoint) (Some data) kwargs
              :: sent w)
    /\ (clashes ["self"; "endpoint"; "method"] kwargs = false ->
          _get server json_loads endpoint kwargs c w
          = _request server json_loads endpoint "get"
              (dict_get_default "data" kwargs) (dict_del "data" kwargs) c w
          /\ sent (world_of (_get server json_loads endpoint kwargs c w))
             = mk_request sid GET (url c ++ endpoint) None
                 (dict_del "data" kwargs) :: sent w)
    /\ (clashes ["self"; "endpoint"; "method"; "data"] kwargs = false ->
          _post server json_loads endpoint data kwargs c w
          = _request server json_loads endpoint "post" data kwargs c w
          /\ sent (world_of (_post server json_loads endpoint data kwargs c w))
             = mk_request sid POST (url c ++ endpoint) (Some data) kwargs
                 :: sent w).
Proof.
  intros c w sid endpoint method data kwargs Hauth Hsess.
  assert (forall m d kw,
             sent (world_of (_request server json_loads endpoint m d kw c w))
             = request_sent sid (url c) endpoint m d kw :: sent w) as Hsent.
  { intros m d kw. rewrite (_request_logged_in c w sid) by assumption.
    cbv zeta. destruct (server (sent w) _) as [r|]; [|reflexivity].
    destruct (is_error_status (status_code r)); [reflexivity|].
    destruct (Nat.eqb (String.length (text r)) 0);
      destruct (json_loads _); reflexivity. }
  split; [|split; [|split]].
  - intros ->. now rewrite Hsent.
  - intros Hne. rewrite Hsent. unfold request_sent.
    apply String.eqb_neq in Hne. now rewrite Hne.
  - intros Hkw. unfold _get. rewrite Hkw. split; [reflexivity|].
    now rewrite Hsent.
  - intros Hkw. unfold _post. rewrite Hkw. split; [reflexivity|].
    now rewrite Hsent.
Qed.

(** ** Argument checks of [set_file_priority] *)

Example priority_true_is_one : py_in_ints (PBool true) [0; 1; 2; 7]%Z = true.
Proof. reflexivity. Qed.

Example priority_three_rejected : py_in_ints (PInt 3) [0; 1; 2; 7]%Z = false.
Proof. reflexivity. Qed.

(** C9.  [set_file_priority] checks its arguments first: a [priority] that
    is not in [[0, 1, 2, 7]] raises [ValueError], and a [priority] in the
    list with a [file_id] that is no [int] raises [TypeError]; in both cases
    nothing is sent and the object is as it was. *)
Theorem set_file_priority_validates :
  forall (infohash file_id priority : pyval) (c : Client) (w : World),
    (py_in_ints priority [0; 1; 2; 7]%Z = false ->
       set_file_priority server json_loads infohash file_id priority c w
       = (Raise ValueError, c, w))
    /\ (py_in_ints priority [0; 1; 2; 7]%Z = true ->
        isinstance_int file_id = false ->
          set_file_priority server json_loads infohash file_id priority c w
          = (Raise TypeError, c, w)).
Proof.
  intros infohash file_id priority c w. unfold set_file_priority. split.
  - intros Hp. now rewrite Hp.
  - intros Hp Hid. now rewrite Hp, Hid.
Qed.

(** ** Keyword [data] on the GET path *)

(** With method ['get'] the parameter [data] of [_request] is not used. *)
Lemma _request_get_ignores_data (endpoint : string) (data data' : pyval)
    (kwargs : dict) (c : Client) (w : World) :
  _request server json_loads endpoint "get" data kwargs c w
  = _request server json_loads endpoint "get" data' kwargs c w.
Proof. reflexivity. Qed.

(** C10.  Whatever [_get] sends is a GET without the [data] parameter and
    without a keyword [data], and it sends at most one request: with
    method ['get'], [_request] does the same for every [data].  So
    [get_item] does the same for every [withData], namely what [_get] does
    without that argument. *)
Theorem get_never_transmits_data :
  forall (endpoint : string) (kwargs : dict) (c : Client) (w : World),
    (exists new,
        dispatched w (world_of (_get server json_loads endpoint kwargs c w)) new
        /\ List.length new <= 1
        /\ Forall (fun rq => rq_verb rq = GET
                             /\ rq_data rq = None
                             /\ dict_get "data" (rq_kwargs rq) = None) new)
    /\ (forall data data',
          _request server json_loads endpoint "get" data kwargs c w
          = _request server json_loads endpoint "get" data' kwargs c w)
    /\ (forall withData withData',
          get_item server json_loads withData c w
          = get_item server json_loads withData' c w)
    /\ (forall withData,
          get_item server json_loads withData c w
          = _get server json_loads "rss/items" [] c w).
Proof.
  intros endpoint kwargs c w.
  split; [|split; [intros; apply _request_get_ignores_data
                  |split; reflexivity]].
  unfold _get, dispatched.
  destruct (clashes _ kwargs); [exists []; repeat split; auto|].
  unfold _request, bind, self_url, self_is_authenticated, self_session,
    session_get, send, raise_for_status, raise, ret.
  cbv beta.
  destruct (_is_authenticated c) as [[|]|];
    [|exists []; repeat split; auto ..].
  cbv beta iota delta [negb].
  destruct (session c) as [sid|]; [|exists []; repeat split; auto].
  exists [mk_request sid GET (url c ++ endpoint) None (dict_del "data" kwargs)].
  cbn [String.eqb Ascii.eqb Bool.eqb].
  split; [|split].
  - destruct (server (sent w) _) as [r|]; [|reflexivity].
    destruct (is_error_status (status_code r)); [reflexivity|].
    destruct (Nat.eqb (String.length (text r)) 0);
      destruct (json_loads _); reflexivity.
  - simpl. lia.
  - constructor; [|constructor]. cbn [rq_verb rq_data rq_kwargs].
    repeat split. apply dict_get_del_same.
Qed.

End RequestProps.

(** ** The renaming of old argument names *)

Example torrents_params_example :
  torrents_params [("status", PStr "paused"); ("category", PStr "tv")]
  = [("filter", PStr "paused"); ("category", PStr "tv")].
Proof. reflexivity. Qed.

Example convert_old_args_example :
  convert_old_args [("save_path", PStr "/data"); ("category", PStr "tv")]
  = [("save_path", PStr "/data"); ("category", PStr "tv");
     ("savepath", PStr "/data")].
Proof. reflexivity. Qed.

Example convert_old_args_keeps_new :
  convert_old_args [("save_path", PStr "/old"); ("savepath", PStr "/new")]
  = [("save_path", PStr "/old"); ("savepath", PStr "/new")].
Proof. reflexivity. Qed.





Lemma torrents_fold_untouched (l : dict) :
  forall acc k,
    ~ In k (map (fun item => sent_name (fst item)) l) ->
    dict_get k (fold_left torrents_round l acc) = dict_get k acc.
Proof.
  clear lower.
  induction l as [|item l IH]; intros acc k Hnotin; [reflexivity|].
  simpl in *. rewrite IH by tauto.
  unfold torrents_round. apply dict_get_set_other. tauto.
Qed.





Lemma truthy_get_default (k : string) (d : dict) :
  truthy (dict_get_default k d) = true ->
  dict_get k d = Some (dict_get_default k d).
Proof.
  unfold dict_get_default. destruct (dict_get k d); [reflexivity|].
  discriminate.
Qed.

Example torrents_request :
  sent (world_of (torrents (const_server (mk_response 200 "[]"))
                    sample_json_loads
                    [("status", PStr "paused"); ("category", PStr "tv")]
                    logged_in one_session))
  = [mk_request 0 GET "http://localhost:8080/api/v2/torrents/info" None
       [("params",
         PDict [("filter", PStr "paused"); ("category", PStr "tv")])]].
Proof. reflexivity. Qed.

Example download_from_link_request :
  sent (world_of (download_from_link (const_server (mk_response 200 ""))
                    sample_json_loads (PStr "magnet:?xt=urn:btih:ab")
                    [("save_path", PStr "/data")] logged_in one_session))
  = [mk_request 0 POST "http://localhost:8080/api/v2/torrents/add"
       (Some (PDict [("save_path", PStr "/data");
                     ("savepath", PStr "/data");
                     ("urls", PStr "magnet:?xt=urn:btih:ab")]))
       [("files", PDict [("_dummy", PTuple [PNone; PStr "_dummy"])])]].
Proof. reflexivity. Qed.

(** After the renaming, [download_from_link] only adds the field
    ['urls']. *)
Lemma download_from_link_fields (link : pyval) (kwargs options : dict) :
  download_from_link_options link kwargs = Ret options ->
  forall k, k <> "urls" ->
    dict_get k options = dict_get k (convert_old_args kwargs).
Proof.
  unfold download_from_link_options. intros Hopt k Hk.
  destruct link; try destruct (str_items l); try discriminate;
    injection Hopt as <-; apply dict_get_set_other; congruence.
Qed.

Lemma sent_name_filter (name : string) :
  sent_name name = "filter" -> name = "status" \/ name = "filter".
Proof.
  unfold sent_name. destruct (name =? "status") eqn:E.
  - apply String.eqb_eq in E. now left.
  - now right.
Qed.

Lemma str_items_strings (ss : list string) :
  str_items (map PStr ss) = Ret ss.
Proof.
  induction ss as [|s ss IH]; simpl; [reflexivity | now rewrite IH].
Qed.

Lemma str_items_error (l : list pyval) (e : exn) :
  str_items l = Raise e -> e = TypeError.
Proof.
  induction l as [|h t IH]; simpl; [discriminate|].
  destruct h; try (now intros [= <-]).
  destruct (str_items t); [discriminate|]. intros [= <-]. now apply IH.
Qed.

Lemma str_items_map (l : list pyval) (ss : list string) :
  str_items l = Ret ss -> l = map PStr ss.
Proof.
  revert ss. induction l as [|h t IH]; intros ss; simpl.
  - now intros [= <-].
  - destruct h; try discriminate.
    destruct (str_items t) as [r|]; [|discriminate].
    intros [= <-]. simpl. now rewrite (IH r eq_refl).
Qed.


(** The form fields when [link] is accepted, and the [TypeError] of
    ["\n".join] when it is a list with an item that is no string. *)
Lemma download_from_link_options_urls (link : pyval) (kwargs : dict) :
  (forall ss, link = PList (map PStr ss) ->
     download_from_link_options link kwargs
     = Ret (dict_set "urls" (PStr (join LF ss)) (convert_old_args kwargs)))
  /\ ((forall l, link <> PList l) ->
      download_from_link_options link kwargs
      = Ret (dict_set "urls" link (convert_old_args kwargs)))
  /\ (forall l, link = PList l -> (forall ss, l <> map PStr ss) ->
        download_from_link_options link kwargs = Raise TypeError).
Proof.
  split; [|split].
  - intros ss ->. unfold download_from_link_options.
    now rewrite str_items_strings.
  - intros Hnl. unfold download_from_link_options.
    destruct link; try reflexivity. now destruct (Hnl l).
  - intros l -> Hl. unfold download_from_link_options.
    destruct (str_items l) as [ss|e] eqn:E.
    + apply str_items_map in E. now destruct (Hl ss).
    + now rewrite (str_items_error l e E).
Qed.

Section Shims.

Variable server : list http_request -> http_request -> net_outcome.
Variable json_loads : string -> option pyval.

(** [torrents] passes the renamed keywords to [_get], which sends them as
    the query of one GET. *)
Lemma torrents_sends (filters : dict) (c : Client) (w : World) :
  torrents server json_loads filters c w
  = _get server json_loads "torrents/info"
      [("params", PDict (torrents_params filters))] c w
  /\ forall sid,
       _is_authenticated c = Some true ->
       session c = Some sid ->
       sent (world_of (torrents server json_loads filters c w))
       = mk_request sid GET (url c ++ "torrents/info") None
           [("params", PDict (torrents_params filters))] :: sent w.
Proof.
  split; [reflexivity|]. intros sid Hauth Hsess.
  unfold torrents, _get. cbv zeta.
  change (clashes ["self"; "endpoint"; "method"]
            [("params", PDict (torrents_params filters))]) with false.
  cbv iota. now rewrite (_request_records server json_loads c w sid).
Qed.

(** [download_from_link] passes its form fields to [_post], which sends
    them as the data of one POST. *)
Lemma download_from_link_sends (link : pyval) (kwargs options : dict)
    (c : Client) (w : World) :
  download_from_link_options link kwargs = Ret options ->
  download_from_link server json_loads link kwargs c w
  = _post server json_loads "torrents/add" (PDict options)
      [("files", PDict [("_dummy", PTuple [PNone; PStr "_dummy"])])] c w
  /\ forall sid,
       _is_authenticated c = Some true ->
       session c = Some sid ->
       sent (world_of (download_from_link server json_loads link kwargs c w))
       = mk_request sid POST (url c ++ "torrents/add") (Some (PDict options))
           [("files", PDict [("_dummy", PTuple [PNone; PStr "_dummy"])])]
           :: sent w.
Proof.
  intros Hopt.
  assert (download_from_link server json_loads link kwargs c w
          = _post server json_loads "torrents/add" (PDict options)
              [("files", PDict [("_dummy", PTuple [PNone; PStr "_dummy"])])]
              c w) as Heq.
  { unfold download_from_link, bind, lift. now rewrite Hopt. }
  split; [exact Heq|]. intros sid Hauth Hsess. rewrite Heq.
  unfold _post.
  change (clashes ["self"; "endpoint"; "method"; "data"]
            [("files", PDict [("_dummy", PTuple [PNone; PStr "_dummy"])])])
    with false.
  cbv iota. now rewrite (_request_records server json_loads c w sid).
Qed.

Lemma download_from_link_raises (link : pyval) (kwargs : dict) (e : exn)
    (c : Client) (w : World) :
  download_from_link_options link kwargs = Raise e ->
  download_from_link server json_loads link kwargs c w = (Raise e, c, w).
Proof.
  intros Hopt. unfold download_from_link, bind, lift. now rewrite Hopt.
Qed.


End Shims.

(** ** [self.url] and the URLs of requests *)

Lemma sends_to_silent {A : Type} (ok : string -> Prop) (base : string)
    (m : M A) :
  (forall c w, url (client_of (m c w)) = url c /\ world_of (m c w) = w) ->
  sends_to ok base m.
Proof.
  intros H c w Hbase. destruct (H c w) as [Hu Hw]. split; [congruence|].
  exists []. split; [unfold dispatched; now rewrite Hw | constructor].
Qed.

Lemma sends_to_ret {A : Type} (ok : string -> Prop) (base : string) (a : A) :
  sends_to ok base (ret a).
Proof. apply sends_to_silent. now intros. Qed.

Lemma sends_to_raise {A : Type} (ok : string -> Prop) (base : string)
    (e : exn) :
  sends_to ok base (@raise A e).
Proof. apply sends_to_silent. now intros. Qed.

Lemma sends_to_lift {A : Type} (ok : string -> Prop) (base : string)
    (o : outcome A) :
  sends_to ok base (lift o).
Proof. apply sends_to_silent. now intros. Qed.

Lemma sends_to_self_is_authenticated (ok : string -> Prop) (base : string) :
  sends_to ok base self_is_authenticated.
Proof.
  apply sends_to_silent. intros c w. unfold self_is_authenticated.
  now destruct (_is_authenticated c).
Qed.

Lemma sends_to_self_session (ok : string -> Prop) (base : string) :
  sends_to ok base self_session.
Proof.
  apply sends_to_silent. intros c w. unfold self_session.
  now destruct (session c).
Qed.

Lemma sends_to_set_is_authenticated (ok : string -> Prop) (base : string)
    (b : bool) :
  sends_to ok base (set_is_authenticated b).
Proof. apply sends_to_silent. now intros. Qed.

Lemma sends_to_set_session (ok : string -> Prop) (base : string) (s : nat) :
  sends_to ok base (set_session s).
Proof. apply sends_to_silent. now intros. Qed.

Lemma sends_to_new_session (ok : string -> Prop) (base : string) :
  sends_to ok base new_session.
Proof.
  intros c w Hbase. split; [exact Hbase|]. exists []. now split.
Qed.

Lemma sends_to_bind {A B : Type} (ok : string -> Prop) (base : string)
    (m : M A) (k : A -> M B) :
  sends_to ok base m ->
  (forall a, sends_to ok base (k a)) ->
  sends_to ok base (bind m k).
Proof.
  intros Hm Hk c w Hbase.
  destruct (Hm c w Hbase) as [Hu1 [new1 [Hs1 Hf1]]].
  unfold bind, client_of, world_of, dispatched in *.
  destruct (m c w) as [[[a|e] c1] w1]; simpl in *.
  - destruct (Hk a c1 w1 Hu1) as [Hu2 [new2 [Hs2 Hf2]]].
    unfold client_of, world_of, dispatched in *.
    split; [exact Hu2|].
    exists (new2 ++ new1)%list. split.
    + rewrite Hs2, Hs1. apply app_assoc.
    + apply Forall_app. now split.
  - split; [exact Hu1|]. exists new1. now split.
Qed.

(** Reading [self.url] gives [base]. *)
Lemma sends_to_self_url {A : Type} (ok : string -> Prop) (base : string)
    (k : string -> M A) :
  sends_to ok base (k base) ->
  sends_to ok base (bind self_url k).
Proof.
  intros Hk c w Hbase. unfold bind, self_url. rewrite Hbase.
  now apply Hk.
Qed.

Lemma sends_to_weaken {A : Type} (ok ok' : string -> Prop) (base : string)
    (m : M A) :
  (forall endpoint, ok endpoint -> ok' endpoint) ->
  sends_to ok base m -> sends_to ok' base m.
Proof.
  intros Himp Hm c w Hbase.
  destruct (Hm c w Hbase) as [Hu [new [Hs Hf]]].
  split; [exact Hu|]. exists new. split; [exact Hs|].
  eapply Forall_impl; [|exact Hf].
  intros rq [endpoint [Hok Hrq]]. exists endpoint. auto.
Qed.

Lemma keeps_url_of_sends_to {A : Type} (m : M A) :
  (forall base, sends_to (fun _ => True) base m) -> keeps_url m.
Proof.
  intros H c w. destruct (H (url c) c w eq_refl) as [Hu [new [Hs Hf]]].
  split; [exact Hu|]. exists new. split; [exact Hs|].
  eapply Forall_impl; [|exact Hf].
  intros rq [endpoint [_ Hrq]]. now exists endpoint.
Qed.

Section UrlProps.

Variable server : list http_request -> http_request -> net_outcome.
Variable json_loads : string -> option pyval.
Variable json_dumps : pyval -> option string.

Variable ok : string -> Prop.

Lemma sends_to_send (base endpoint : string) (s : nat) (v : verb)
    (data : option pyval) (kwargs : dict) :
  ok endpoint ->
  sends_to ok base
    (send server (mk_request s v (base ++ endpoint) data kwargs)).
Proof.
  intros Hok c w Hbase. unfold send, client_of, world_of, dispatched.
  split.
  - now destruct (server (sent w) _).
  - exists [mk_request s v (base ++ endpoint) data kwargs]. split.
    + now destruct (server (sent w) _).
    + constructor; [|constructor]. now exists endpoint.
Qed.

Lemma sends_to_raise_for_status (base : string) (r : http_response) :
  sends_to ok base (raise_for_status r).
Proof.
  unfold raise_for_status. destruct (is_error_status (status_code r)).
  - apply sends_to_raise.
  - apply sends_to_ret.
Qed.

Lemma sends_to_request (base endpoint method : string) (data : pyval)
    (kwargs : dict) :
  ok endpoint ->
  sends_to ok base (_request server json_loads endpoint method data kwargs).
Proof.
  intros Hok. unfold _request. apply sends_to_self_url.
  apply sends_to_bind; [apply sends_to_self_is_authenticated|].
  intros [|]; cbn [negb]; [|apply sends_to_raise].
  apply sends_to_bind; [apply sends_to_self_session|]. intros sid.
  apply sends_to_bind.
  { destruct (method =? "get"); now apply sends_to_send. }
  intros r. apply sends_to_bind; [apply sends_to_raise_for_status|].
  intros _. destruct (Nat.eqb (String.length (text r)) 0);
    destruct (json_loads _);
    first [apply sends_to_ret | apply sends_to_raise].
Qed.

Lemma sends_to_get (base endpoint : string) (kwargs : dict) :
  ok endpoint ->
  sends_to ok base (_get server json_loads endpoint kwargs).
Proof.
  intros Hok. unfold _get. destruct (clashes _ kwargs).
  - apply sends_to_raise.
  - now apply sends_to_request.
Qed.

Lemma sends_to_post (base endpoint : string) (data : pyval) (kwargs : dict) :
  ok endpoint ->
  sends_to ok base (_post server json_loads endpoint data kwargs).
Proof.
  intros Hok. unfold _post. destruct (clashes _ kwargs).
  - apply sends_to_raise.
  - now apply sends_to_request.
Qed.

Lemma sends_to_init_body (base : string) :
  ok "app/preferences" ->
  sends_to ok base (__init__body server).
Proof.
  intros Hok. unfold __init__body. apply sends_to_self_url.
  apply sends_to_bind; [apply sends_to_new_session|]. intros sid.
  apply sends_to_bind; [now apply sends_to_send|]. intros r.
  destruct (status_code r =? 200)%Z; [|destruct (status_code r =? 404)%Z].
  - apply sends_to_bind; [apply sends_to_set_is_authenticated|].
    intros _. apply sends_to_set_session.
  - apply sends_to_bind; [apply sends_to_set_is_authenticated|].
    intros _. apply sends_to_raise.
  - apply sends_to_set_is_authenticated.
Qed.

End UrlProps.

Section CallProps.

Variable server : list http_request -> http_request -> net_outcome.
Variable json_loads : string -> option pyval.
Variable json_dumps : pyval -> option string.

(** The constructor, however it ends, leaves the object with the [url]
    completed on lines 13-15 and sends its request under that [url]. *)
Lemma init_url (url0 : string) (w : World) :
  let url1 := if endswith url0 "/api/v2/" then url0 else url0 ++ "/api/v2/" in
  url (client_of (__init__ server url0 w)) = url1
  /\ exists new,
       dispatched w (world_of (__init__ server url0 w)) new
       /\ Forall (fun rq => rq_url rq = url1 ++ "app/preferences") new.
Proof.
  intros url1. unfold __init__.
  replace (if negb (endswith url0 "/api/v2/")
           then url0 ++ "/api/v2/" else url0) with url1
    by (subst url1; now destruct (endswith url0 "/api/v2/")).
  destruct (sends_to_init_body server (eq "app/preferences") url1 eq_refl
              (mk_client url1 None None) w eq_refl) as [Hu [new [Hs Hf]]].
  split; [exact Hu|]. exists new. split; [exact Hs|].
  eapply Forall_impl; [|exact Hf].
  now intros rq [endpoint [<- Hrq]].
Qed.

Lemma completed_url_endswith (url0 : string) :
  endswith (if endswith url0 "/api/v2/" then url0 else url0 ++ "/api/v2/")
    "/api/v2/" = true.
Proof.
  destruct (endswith url0 "/api/v2/") eqn:E; [exact E|].
  apply endswith_app.
Qed.

Variable ok : string -> Prop.

(** Building the [Proxy] sends its request under the [url] it is given,
    and the [Proxy] gets that [url], completed. *)
Lemma Proxy_init_sends (base : string) (prefs0 : pyval) (auth : bool)
    (s : nat) (w : World) :
  ok "app/preferences" ->
  (endswith base "/api/v2/" = false -> ok ("/api/v2/" ++ "app/preferences")) ->
  (exists new,
      sent (snd (Proxy__init__ server base prefs0 auth s w))
      = (new ++ sent w)%list
      /\ Forall (fun rq => exists endpoint,
                    ok endpoint /\ rq_url rq = base ++ endpoint) new)
  /\ forall p,
       fst (Proxy__init__ server base prefs0 auth s w) = Ret p ->
       url (proxy_client p)
       = if endswith base "/api/v2/" then base else base ++ "/api/v2/".
Proof.
  intros Hok Hok'.
  destruct (init_url base w) as [Hu [new [Hs Hf]]].
  assert (Forall (fun rq => exists endpoint,
                     ok endpoint /\ rq_url rq = base ++ endpoint) new) as Hf'.
  { eapply Forall_impl; [|exact Hf].
    intros rq Hrq. destruct (endswith base "/api/v2/").
    - now exists "app/preferences".
    - exists ("/api/v2/" ++ "app/preferences"). split; [now apply Hok'|].
      now rewrite Hrq, app_assoc_str. }
  unfold Proxy__init__, client_of, world_of, dispatched in *.
  destruct (__init__ server base w) as [[[[]|e] c1] w1]; simpl in *.
  - split; [now exists new|]. intros p [= <-]. exact Hu.
  - split; [now exists new | discriminate].
Qed.

Lemma sends_to_new_proxy (base : string) (prefs0 : pyval) (auth : bool)
    (s : nat) :
  ok "app/preferences" ->
  (endswith base "/api/v2/" = false -> ok ("/api/v2/" ++ "app/preferences")) ->
  sends_to ok base
    (fun c w =>
       let r := Proxy__init__ server base prefs0 auth s w in
       (fst r, c, snd r)).
Proof.
  intros Hok Hok' c w Hbase. cbv zeta.
  unfold client_of, world_of, dispatched. simpl.
  split; [exact Hbase|].
  exact (proj1 (Proxy_init_sends base prefs0 auth s w Hok Hok')).
Qed.

Ltac url_step :=
  cbv beta zeta;
  lazymatch goal with
  | |- sends_to _ _ (_get _ _ _ _) => apply sends_to_get; assumption
  | |- sends_to _ _ (_post _ _ _ _ _) => apply sends_to_post; assumption
  | |- sends_to _ _ (bind self_url _) => apply sends_to_self_url
  | |- sends_to _ _ (bind _ _) => apply sends_to_bind; [|intros ?]
  | |- sends_to _ _ (ret _) => apply sends_to_ret
  | |- sends_to _ _ (raise _) => apply sends_to_raise
  | |- sends_to _ _ (lift _) => apply sends_to_lift
  | |- sends_to _ _ (session_post _ _ _ _ _) =>
      apply sends_to_send; assumption
  | |- sends_to _ _ new_session => apply sends_to_new_session
  | |- sends_to _ _ (set_session _) => apply sends_to_set_session
  | |- sends_to _ _ (set_is_authenticated _) =>
      apply sends_to_set_is_authenticated
  | |- sends_to _ _ self_is_authenticated =>
      apply sends_to_self_is_authenticated
  | |- sends_to _ _ self_session => apply sends_to_self_session
  | |- sends_to _ _ (match json_dumps ?v with _ => _ end) =>
      destruct (json_dumps v)
  | |- sends_to _ _ (if ?b then _ else _) => destruct b
  | |- sends_to _ _ (fun _ _ => _) => apply sends_to_new_proxy; assumption
  end.

(** Every public call leaves [self.url] alone and sends only to its own
    endpoint under it. *)
Lemma sends_to_run_call (base : string) (op : call) :
  ok (endpoint_of op) ->
  (endswith base "/api/v2/" = false -> ok ("/api/v2/" ++ endpoint_of op)) ->
  sends_to ok base (run_call server json_loads json_dumps op).
Proof.
  intros Hok Hok'.
  destruct op; unfold run_call;
    (apply sends_to_bind; [|intros ?; apply sends_to_ret]);
    unfold login, logout, preferences, qbittorrent_version, api_version,
      shutdown, set_preferences, get_default_save_path, get_log,
      get_peer_log, get_sync_maindata, get_sync_torrentPeers,
      global_transfer_info, get_alternative_speed_status,
      toggle_alternative_speed, get_global_download_limit,
      set_global_download_limit, get_global_upload_limit,
      set_global_upload_limit, torrents, get_torrent, get_torrent_trackers,
      get_torrent_webseeds, get_torrent_files, get_torrent_pieces_state,
      get_torrent_pieces_hashes, pause, pause_all, resume, resume_all,
      delete, delete_permanently, recheck, recheck_all, reannounce,
      reannounce_all, download_from_link, download_from_file, add_trackers,
      increase_priority, decrease_priority, set_max_priority,
      set_min_priority, set_file_priority, get_torrent_download_limit,
      set_torrent_download_limit, set_torrent_share_limit,
      get_torrent_upload_limit, set_torrent_upload_limit, set_location,
      set_torrent_name, set_category, add_category, edit_category,
      remove_category, set_automatic_torrent, set_automatic_torrent_all,
      toggle_sequential_download, toggle_first_last_piece_priority,
      force_start, set_super_seeding, set_super_seeding_all, add_folder,
      add_feed, remove_item, get_item, set_rule, rename_rule, remove_rule,
      get_rules;
    repeat url_step.
Qed.

End CallProps.

Section UrlInvariant.

Variable server : list http_request -> http_request -> net_outcome.
Variable json_loads : string -> option pyval.
Variable json_dumps : pyval -> option string.

Lemma run_call_keeps_url (op : call) :
  keeps_url (run_call server json_loads json_dumps op).
Proof.
  apply keeps_url_of_sends_to. intros base.
  apply sends_to_run_call; [exact I | intros _; exact I].
Qed.

(** The [Proxy] of [preferences] has the [url] of the object it came
    from, completed. *)
Lemma preferences_proxy_url (c : Client) (w : World) (p : Proxy) :
  result_of (preferences server json_loads c w) = Ret p ->
  url (proxy_client p)
  = if endswith (url c) "/api/v2/" then url c else url c ++ "/api/v2/".
Proof.
  unfold preferences, bind, result_of.
  destruct (sends_to_get server json_loads (fun _ => True) (url c)
              "app/preferences" [] I c w eq_refl) as [Hu _].
  unfold client_of in Hu.
  destruct (_get server json_loads "app/preferences" [] c w)
    as [[[v|e] c1] w1]; simpl in *; [|discriminate].
  unfold self_url, self_is_authenticated, self_session.
  destruct (_is_authenticated c1) as [auth|]; [|discriminate].
  destruct (session c1) as [s|]; [|discriminate].
  simpl. rewrite Hu. intros Hp.
  exact (proj2 (Proxy_init_sends server (fun _ => True) (url c) v auth s w1
                  I (fun _ => I)) p Hp).
Qed.

(** Every object a program can hold has a [url] that ends with
    ['/api/v2/']. *)
Lemma reachable_url (c : Client) :
  reachable server json_loads json_dumps c ->
  endswith (url c) "/api/v2/" = true.
Proof.
  induction 1 as [url0 w | op c w Hc IH | c w p Hc IH Hp].
  - rewrite (proj1 (init_url server url0 w)). apply completed_url_endswith.
  - destruct (run_call_keeps_url op c w) as [Hu _]. now rewrite Hu.
  - rewrite (preferences_proxy_url c w p Hp). now rewrite IH.
Qed.

(** C8.  When [Client.__init__] is over, with or without an exception,
    [self.url] ends with ['/api/v2/']: it is the given url, with
    ['/api/v2/'] appended exactly when the given url did not end with it.
    No public call changes [self.url], every request of a call goes to
    [self.url] followed by an endpoint, and so the [url] of every object
    that can be reached ends with ['/api/v2/']. *)
Theorem url_ends_with_api_prefix :
  forall (url0 : string) (w : World),
    endswith (url (client_of (__init__ server url0 w))) "/api/v2/" = true
    /\ url (client_of (__init__ server url0 w))
       = (if endswith url0 "/api/v2/" then url0 else url0 ++ "/api/v2/")
    /\ (forall op, keeps_url (run_call server json_loads json_dumps op))
    /\ (forall c, reachable server json_loads json_dumps c ->
                  endswith (url c) "/api/v2/" = true).
Proof.
  intros url0 w. split; [|split; [|split]].
  - apply reachable_url. constructor.
  - exact (proj1 (init_url server url0 w)).
  - exact run_call_keeps_url.
  - exact reachable_url.
Qed.

(** On an object that can be reached, every request of a public call goes
    to [self.url] followed by the endpoint of that call. *)
Lemma call_endpoint (op : call) (c : Client) (w : World) :
  reachable server json_loads json_dumps c ->
  exists new,
    dispatched w (world_of (run_call server json_loads json_dumps op c w)) new
    /\ Forall (fun rq => rq_url rq = url c ++ endpoint_of op) new.
Proof.
  intros Hc. apply reachable_url in Hc.
  assert (endswith (url c) "/api/v2/" = false ->
          endpoint_of op = "/api/v2/" ++ endpoint_of op) as Hok'
    by congruence.
  destruct (sends_to_run_call server json_loads json_dumps
              (eq (endpoint_of op)) (url c) op eq_refl Hok' c w eq_refl)
    as [_ [new [Hs Hf]]].
  exists new. split; [exact Hs|].
  eapply Forall_impl; [|exact Hf]. now intros rq [endpoint [<- Hrq]].
Qed.

End UrlInvariant.

(** ** The endpoint of [remove_item] *)

(** C4 at [remove_item('news')]: the request goes to ['rss/addFeed'], the
    endpoint of [add_feed], for every server and every object. *)
Theorem remove_item_posts_to_addFeed :
  (forall server json_loads path c w,
      remove_item server json_loads path c w
      = _post server json_loads "rss/addFeed" (PDict [("path", path)]) [] c w)
  /\ (forall feed path,
         endpoint_of (Call_remove_item path)
         = endpoint_of (Call_add_feed feed path))
  /\ sent (world_of (remove_item (const_server (mk_response 200 ""))
                       sample_json_loads (PStr "news") logged_in one_session))
     = [mk_request 0 POST "http://localhost:8080/api/v2/rss/addFeed"
          (Some (PDict [("path", PStr "news")])) []]
  /\ map rq_url
       (sent (world_of (add_feed (const_server (mk_response 200 ""))
                          sample_json_loads (PStr "http://example.org/rss")
                          (PStr "news") logged_in one_session)))
     = ["http://localhost:8080/api/v2/rss/addFeed"].
Proof. repeat split. Qed.

(** * Further properties of the wrapper *)

(** ** What a call does to the object and how much it sends *)

Lemma frames_silent {A : Type} (m : M A) :
  (forall c w, client_of (m c w) = c /\ world_of (m c w) = w) ->
  frames 0 m.
Proof.
  intros H c w. destruct (H c w) as [Hc Hw]. split; [exact Hc|].
  exists []. unfold dispatched. rewrite Hw. repeat split; auto.
Qed.

Lemma frames_ret {A : Type} (a : A) : frames 0 (ret a).
Proof. apply frames_silent. now intros. Qed.

Lemma frames_raise {A : Type} (e : exn) : frames 0 (@raise A e).
Proof. apply frames_silent. now intros. Qed.

Lemma frames_lift {A : Type} (o : outcome A) : frames 0 (lift o).
Proof. apply frames_silent. now intros. Qed.

Lemma frames_self_url : frames 0 self_url.
Proof. apply frames_silent. now intros. Qed.

Lemma frames_self_is_authenticated : frames 0 self_is_authenticated.
Proof.
  apply frames_silent. intros c w. unfold self_is_authenticated.
  now destruct (_is_authenticated c).
Qed.

Lemma frames_self_session : frames 0 self_session.
Proof.
  apply frames_silent. intros c w. unfold self_session.
  now destruct (session c).
Qed.

Lemma frames_bind {A B : Type} (n1 n2 : nat) (m : M A) (k : A -> M B) :
  frames n1 m ->
  (forall a, frames n2 (k a)) ->
  frames (n1 + n2) (bind m k).
Proof.
  intros Hm Hk c w.
  destruct (Hm c w) as [Hc1 [new1 [Hs1 [Hl1 Hf1]]]].
  unfold bind, client_of, world_of, dispatched in *.
  destruct (m c w) as [[[a|e] c1] w1]; simpl in *; subst c1.
  - destruct (Hk a c w1) as [Hc2 [new2 [Hs2 [Hl2 Hf2]]]].
    unfold client_of, world_of, dispatched in *.
    split; [exact Hc2|].
    exists (new2 ++ new1)%list. split; [|split].
    + rewrite Hs2, Hs1. apply app_assoc.
    + rewrite List.length_app. lia.
    + apply Forall_app. now split.
  - split; [reflexivity|]. exists new1. repeat split; auto. lia.
Qed.

Lemma frames_bind_pure {A B : Type} (n : nat) (m : M A) (k : A -> M B) :
  frames 0 m ->
  (forall a, frames n (k a)) ->
  frames n (bind m k).
Proof. intros Hm Hk. exact (frames_bind 0 n m k Hm Hk). Qed.

Lemma frames_bind_last {A B : Type} (n : nat) (m : M A) (k : A -> M B) :
  frames n m ->
  (forall a, frames 0 (k a)) ->
  frames n (bind m k).
Proof.
  intros Hm Hk. rewrite <- (Nat.add_0_r n). now apply frames_bind.
Qed.

Lemma frames_more {A : Type} (n n' : nat) (m : M A) :
  n <= n' -> frames n m -> frames n' m.
Proof.
  intros Hle Hm c w. destruct (Hm c w) as [Hc [new [Hs [Hl Hf]]]].
  split; [exact Hc|]. exists new. repeat split; auto. lia.
Qed.

Section FrameProps.

Variable server : list http_request -> http_request -> net_outcome.
Variable json_loads : string -> option pyval.
Variable json_dumps : pyval -> option string.

(** An object that is not logged in with a session makes [_request] raise
    at once. *)
Lemma _request_not_ready (c : Client) (w : World)
    (endpoint method : string) (data : pyval) (kwargs : dict) :
  _is_authenticated c <> Some true \/ session c = None ->
  exists e,
    _request server json_loads endpoint method data kwargs c w
    = (Raise e, c, w).
Proof.
  intros Hnot.
  unfold _request, bind, self_url, self_is_authenticated, self_session.
  destruct (_is_authenticated c) as [[|]|] eqn:Ha; cbv beta iota delta [negb].
  - destruct Hnot as [Hnot | Hs]; [congruence|]. rewrite Hs.
    now exists AttributeError.
  - now exists LoginRequired.
  - now exists AttributeError.
Qed.

Lemma frames_request (endpoint method : string) (data : pyval)
    (kwargs : dict) :
  frames 1 (_request server json_loads endpoint method data kwargs).
Proof.
  intros c w.
  destruct (_is_authenticated c) as [[|]|] eqn:Ha;
    [destruct (session c) as [sid|] eqn:Hs|..].
  - rewrite (_request_logged_in server json_loads c w sid) by assumption.
    cbv zeta.
    assert (session c
            = Some (rq_session
                      (request_sent sid (url c) endpoint method data kwargs)))
      as Hsid.
    { unfold request_sent. now destruct (method =? "get"). }
    destruct (server (sent w) _) as [r|];
      [destruct (is_error_status (status_code r));
       [|destruct (Nat.eqb (String.length (text r)) 0);
         destruct (json_loads _)]|];
      (split; [reflexivity|];
       exists [request_sent sid (url c) endpoint method data kwargs];
       split; [reflexivity|]; split; [simpl; lia|];
       constructor; [congruence | constructor]).
  - destruct (_request_not_ready c w endpoint method data kwargs)
      as [e He]; [now right|].
    rewrite He. split; [reflexivity|]. exists []. repeat split; auto.
  - destruct (_request_not_ready c w endpoint method data kwargs)
      as [e He]; [left; congruence|].
    rewrite He. split; [reflexivity|]. exists []. repeat split; auto.
  - destruct (_request_not_ready c w endpoint method data kwargs)
      as [e He]; [left; congruence|].
    rewrite He. split; [reflexivity|]. exists []. repeat split; auto.
Qed.

Lemma frames_get (endpoint : string) (kwargs : dict) :
  frames 1 (_get server json_loads endpoint kwargs).
Proof.
  unfold _get. destruct (clashes _ kwargs).
  - apply (frames_more 0); [lia | apply frames_raise].
  - apply frames_request.
Qed.

Lemma frames_post (endpoint : string) (data : pyval) (kwargs : dict) :
  frames 1 (_post server json_loads endpoint data kwargs).
Proof.
  unfold _post. destruct (clashes _ kwargs).
  - apply (frames_more 0); [lia | apply frames_raise].
  - apply frames_request.
Qed.

End FrameProps.

Section CallFrames.

Variable server : list http_request -> http_request -> net_outcome.
Variable json_loads : string -> option pyval.
Variable json_dumps : pyval -> option string.

Ltac frame_step :=
  cbv beta zeta;
  lazymatch goal with
  | |- frames _ (_get _ _ _ _) => apply frames_get
  | |- frames _ (_post _ _ _ _ _) => apply frames_post
  | |- frames _ (bind (lift _) _) =>
      apply frames_bind_pure; [apply frames_lift | intros ?]
  | |- frames _ (raise _) =>
      apply (frames_more 0 1); [lia | apply frames_raise]
  | |- frames _ (match json_dumps ?v with _ => _ end) =>
      destruct (json_dumps v)
  | |- frames _ (if ?b then _ else _) => destruct b
  end.

(** Apart from [login], [logout] and [preferences], a public call leaves
    the object as it is and sends at most one request, on the session of
    the object. *)
Lemma frames_run_call (op : call) :
  assigns_attributes op = false ->
  is_preferences op = false ->
  frames 1 (run_call server json_loads json_dumps op).
Proof.
  intros Hassign Hprefs.
  destruct op; try discriminate; unfold run_call;
    (apply frames_bind_last; [|intros ?; apply frames_ret]);
    unfold login, logout, preferences, qbittorrent_version, api_version,
      shutdown, set_preferences, get_default_save_path, get_log,
      get_peer_log, get_sync_maindata, get_sync_torrentPeers,
      global_transfer_info, get_alternative_speed_status,
      toggle_alternative_speed, get_global_download_limit,
      set_global_download_limit, get_global_upload_limit,
      set_global_upload_limit, torrents, get_torrent, get_torrent_trackers,
      get_torrent_webseeds, get_torrent_files, get_torrent_pieces_state,
      get_torrent_pieces_hashes, pause, pause_all, resume, resume_all,
      delete, delete_permanently, recheck, recheck_all, reannounce,
      reannounce_all, download_from_link, download_from_file, add_trackers,
      increase_priority, decrease_priority, set_max_priority,
      set_min_priority, set_file_priority, get_torrent_download_limit,
      set_torrent_download_limit, set_torrent_share_limit,
      get_torrent_upload_limit, set_torrent_upload_limit, set_location,
      set_torrent_name, set_category, add_category, edit_category,
      remove_category, set_automatic_torrent, set_automatic_torrent_all,
      toggle_sequential_download, toggle_first_last_piece_priority,
      force_start, set_super_seeding, set_super_seeding_all, add_folder,
      add_feed, remove_item, get_item, set_rule, rename_rule, remove_rule,
      get_rules;
    repeat frame_step.
Qed.

(** The constructor sends one GET for ['app/preferences'] on a new
    session, whatever comes back. *)
Lemma init_sends_one (url0 : string) (w : World) :
  world_of (__init__ server url0 w)
  = mk_world
      (mk_request (sessions w) GET
         ((if endswith url0 "/api/v2/" then url0 else url0 ++ "/api/v2/")
          ++ "app/preferences") None [] :: sent w)
      (S (sessions w)).
Proof.
  unfold __init__, __init__body, bind, self_url, new_session, session_get,
    send, set_is_authenticated, set_session, raise, world_of.
  destruct (endswith url0 "/api/v2/"); cbn [negb url sent sessions];
    (destruct (server (sent w) _) as [r|]; [|reflexivity]);
    destruct (status_code r =? 200)%Z; try reflexivity;
    destruct (status_code r =? 404)%Z; reflexivity.
Qed.

Lemma preferences_leaves_object (c : Client) (w : World) :
  client_of (preferences server json_loads c w) = c.
Proof.
  unfold preferences, bind.
  destruct (frames_get server json_loads "app/preferences" [] c w)
    as [Hc _].
  unfold client_of in *.
  destruct (_get server json_loads "app/preferences" [] c w)
    as [[[v|e] c1] w1]; simpl in *; subst c1; [|reflexivity].
  unfold self_url, self_is_authenticated, self_session.
  destruct (_is_authenticated c); [|reflexivity].
  now destruct (session c).
Qed.

Lemma preferences_sends_at_most_two (c : Client) (w : World) :
  exists new,
    dispatched w (world_of (preferences server json_loads c w)) new
    /\ List.length new <= 2.
Proof.
  unfold preferences, bind.
  destruct (frames_get server json_loads "app/preferences" [] c w)
    as [Hc [new1 [Hs1 [Hl1 _]]]].
  unfold client_of, world_of, dispatched in *.
  destruct (_get server json_loads "app/preferences" [] c w)
    as [[[v|e] c1] w1]; simpl in *; subst c1;
    [|exists new1; split; [exact Hs1 | lia]].
  unfold self_url, self_is_authenticated, self_session.
  destruct (_is_authenticated c) as [auth|];
    [|exists new1; split; [exact Hs1 | lia]].
  destruct (session c) as [s|]; [|exists new1; split; [exact Hs1 | lia]].
  cbv zeta. cbn [snd fst].
  pose proof (init_sends_one (url c) w1) as Hinit.
  unfold Proxy__init__, world_of in *.
  destruct (__init__ server (url c) w1) as [[[[]|e] c2] w2];
    cbn [snd fst] in *; subst w2; cbn [sent];
    (eexists (_ :: new1); split; [rewrite Hs1; reflexivity | simpl; lia]).
Qed.

Lemma login_sends_at_most_one (username password : pyval) (c : Client)
    (w : World) :
  exists new,
    dispatched w (world_of (login server username password c w)) new
    /\ List.length new <= 1.
Proof.
  unfold login, bind, new_session, set_session, self_url, session_post,
    send, set_is_authenticated, ret, world_of, dispatched.
  cbn [url sent sessions].
  destruct (server (sent w) _) as [r|].
  - destruct (text r =? "Ok."); cbn [snd sent];
      (eexists [_]; split; [reflexivity | simpl; lia]).
  - cbn [snd sent]. eexists [_]. split; [reflexivity | simpl; lia].
Qed.

Lemma logout_frames (c : Client) (w : World) :
  exists new,
    dispatched w (world_of (logout server json_loads c w)) new
    /\ List.length new <= 1
    /\ Forall (fun rq => session c = Some (rq_session rq)) new.
Proof.
  unfold logout, bind.
  destruct (frames_get server json_loads "auth/logout" [] c w)
    as [Hc [new [Hs Hrest]]].
  unfold client_of, world_of, dispatched in *.
  destruct (_get server json_loads "auth/logout" [] c w)
    as [[[v|e] c1] w1]; simpl in *; exists new; now split.
Qed.

Lemma run_call_leaves_object (op : call) (c : Client) (w : World) :
  assigns_attributes op = false ->
  client_of (run_call server json_loads json_dumps op c w) = c.
Proof.
  intros Hassign.
  destruct (is_preferences op) eqn:Hprefs.
  - destruct op; try discriminate.
    unfold run_call, bind.
    pose proof (preferences_leaves_object c w) as Hc. unfold client_of in *.
    now destruct (preferences server json_loads c w) as [[[p|e] c1] w1].
  - exact (proj1 (frames_run_call op Hassign Hprefs c w)).
Qed.

(** X2.  A public call other than [login] and [logout] assigns no
    attribute: the object is afterwards what it was, whatever the server
    answers and whether or not the call raises. *)
Theorem calls_leave_object :
  forall (op : call) (c : Client) (w : World),
    assigns_attributes op = false ->
    client_of (run_call server json_loads json_dumps op c w) = c.
Proof.
  intros op c w Hassign. now apply run_call_leaves_object.
Qed.

(** X3.  Every public call sends at most one request, and [preferences]
    at most two: there is no retry and no second request of any kind. *)
Theorem calls_send_within_budget :
  forall (op : call) (c : Client) (w : World),
    exists new,
      dispatched w (world_of (run_call server json_loads json_dumps op c w))
        new
      /\ List.length new <= request_budget op.
Proof.
  intros op c w.
  assert (forall (A : Type) (m : M A) (f : A -> retval) (n : nat),
             (exists new, dispatched w (world_of (m c w)) new
                          /\ List.length new <= n) ->
             exists new,
               dispatched w (world_of (bind m (fun a => ret (f a)) c w)) new
               /\ List.length new <= n) as Hwrap.
  { intros A m f n [new [Hs Hl]]. exists new. split; [|exact Hl].
    unfold bind, ret, world_of, dispatched in *.
    now destruct (m c w) as [[[a|e] c1] w1]. }
  destruct (assigns_attributes op) eqn:Hassign;
    [|destruct (is_preferences op) eqn:Hprefs].
  - destruct op; try discriminate; unfold run_call; apply Hwrap.
    + apply login_sends_at_most_one.
    + destruct (logout_frames c w) as [new [Hs [Hl _]]]. now exists new.
  - destruct op; try discriminate. unfold run_call. apply Hwrap.
    apply preferences_sends_at_most_two.
  - destruct (frames_run_call op Hassign Hprefs c w)
      as [_ [new [Hs [Hl _]]]].
    exists new. split; [exact Hs|].
    destruct op; try discriminate; exact Hl.
Qed.

(** X4.  Apart from [login] (which opens a session) and [preferences]
    (whose [Proxy] probes on a session of its own), every request of a
    public call is made on [self.session]. *)
Theorem calls_use_own_session :
  forall (op : call) (c : Client) (w : World),
    is_login op = false ->
    is_preferences op = false ->
    exists new,
      dispatched w (world_of (run_call server json_loads json_dumps op c w))
        new
      /\ Forall (fun rq => session c = Some (rq_session rq)) new.
Proof.
  intros op c w Hlogin Hprefs.
  destruct (assigns_attributes op) eqn:Hassign.
  - destruct op; try discriminate. unfold run_call.
    destruct (logout_frames c w) as [new [Hs [_ Hf]]].
    exists new. split; [|exact Hf].
    unfold bind, ret, world_of, dispatched in *.
    now destruct (logout server json_loads c w) as [[[a|e] c1] w1].
  - destruct (frames_run_call op Hassign Hprefs c w)
      as [_ [new [Hs [_ Hf]]]].
    now exists new.
Qed.

End CallFrames.

(** ** Calls on an object that is not logged in *)

Lemma refuses_raise {A : Type} (e : exn) : refuses (@raise A e).
Proof. intros c w _. now exists e. Qed.

Lemma refuses_bind_left {A B : Type} (m : M A) (k : A -> M B) :
  refuses m -> refuses (bind m k).
Proof.
  intros Hm c w Hauth. destruct (Hm c w Hauth) as [e He].
  exists e. unfold bind. now rewrite He.
Qed.

Lemma refuses_bind_lift {A B : Type} (o : outcome A) (k : A -> M B) :
  (forall a, refuses (k a)) -> refuses (bind (lift o) k).
Proof.
  intros Hk c w Hauth. unfold bind, lift. destruct o as [a|e].
  - now apply Hk.
  - now exists e.
Qed.

Section LoggedOut.

Variable server : list http_request -> http_request -> net_outcome.
Variable json_loads : string -> option pyval.
Variable json_dumps : pyval -> option string.

Lemma refuses_request (endpoint method : string) (data : pyval)
    (kwargs : dict) :
  refuses (_request server json_loads endpoint method data kwargs).
Proof.
  intros c w Hauth. exists LoginRequired.
  now apply _request_logged_out.
Qed.

Lemma refuses_get (endpoint : string) (kwargs : dict) :
  refuses (_get server json_loads endpoint kwargs).
Proof.
  unfold _get. destruct (clashes _ kwargs).
  - apply refuses_raise.
  - apply refuses_request.
Qed.

Lemma refuses_post (endpoint : string) (data : pyval) (kwargs : dict) :
  refuses (_post server json_loads endpoint data kwargs).
Proof.
  unfold _post. destruct (clashes _ kwargs).
  - apply refuses_raise.
  - apply refuses_request.
Qed.

Ltac refuse_step :=
  cbv beta zeta;
  lazymatch goal with
  | |- refuses (_get _ _ _ _) => apply refuses_get
  | |- refuses (_post _ _ _ _ _) => apply refuses_post
  | |- refuses (raise _) => apply refuses_raise
  | |- refuses (bind (lift _) _) => apply refuses_bind_lift; intros ?
  | |- refuses (bind _ _) => apply refuses_bind_left
  | |- refuses (match json_dumps ?v with _ => _ end) =>
      destruct (json_dumps v)
  | |- refuses (if ?b then _ else _) => destruct b
  end.

Lemma refuses_run_call (op : call) :
  is_login op = false ->
  refuses (run_call server json_loads json_dumps op).
Proof.
  intros Hlogin.
  destruct op; try discriminate; unfold run_call; apply refuses_bind_left;
    unfold login, logout, preferences, qbittorrent_version, api_version,
      shutdown, set_preferences, get_default_save_path, get_log,
      get_peer_log, get_sync_maindata, get_sync_torrentPeers,
      global_transfer_info, get_alternative_speed_status,
      toggle_alternative_speed, get_global_download_limit,
      set_global_download_limit, get_global_upload_limit,
      set_global_upload_limit, torrents, get_torrent, get_torrent_trackers,
      get_torrent_webseeds, get_torrent_files, get_torrent_pieces_state,
      get_torrent_pieces_hashes, pause, pause_all, resume, resume_all,
      delete, delete_permanently, recheck, recheck_all, reannounce,
      reannounce_all, download_from_link, download_from_file, add_trackers,
      increase_priority, decrease_priority, set_max_priority,
      set_min_priority, set_file_priority, get_torrent_download_limit,
      set_torrent_download_limit, set_torrent_share_limit,
      get_torrent_upload_limit, set_torrent_upload_limit, set_location,
      set_torrent_name, set_category, add_category, edit_category,
      remove_category, set_automatic_torrent, set_automatic_torrent_all,
      toggle_sequential_download, toggle_first_last_piece_priority,
      force_start, set_super_seeding, set_super_seeding_all, add_folder,
      add_feed, remove_item, get_item, set_rule, rename_rule, remove_rule,
      get_rules;
    repeat refuse_step.
Qed.

(** X5.  On an object that is not logged in, every public call except
    [login] raises and changes nothing: no request is sent and no attribute
    is assigned. *)
Theorem calls_refused_when_logged_out :
  forall (op : call) (c : Client) (w : World),
    is_login op = false ->
    _is_authenticated c = Some false ->
    exists e,
      run_call server json_loads json_dumps op c w = (Raise e, c, w).
Proof.
  intros op c w Hlogin Hauth. now apply refuses_run_call.
Qed.


End LoggedOut.

(** ** Constructor, login and the session *)

Section Sessions.

Variable server : list http_request -> http_request -> net_outcome.
Variable json_loads : string -> option pyval.
Variable json_dumps : pyval -> option string.

(** What the constructor makes of the answer to its probe. *)
Lemma init_cases (url0 : string) (w : World) :
  let url1 := if endswith url0 "/api/v2/" then url0 else url0 ++ "/api/v2/" in
  let probe :=
    mk_request (sessions w) GET (url1 ++ "app/preferences") None [] in
  let w' := mk_world (probe :: sent w) (S (sessions w)) in
  __init__ server url0 w
  = match server (sent w) probe with
    | Unreachable => (Raise ConnectionError, mk_client url1 None None, w')
    | Responded r =>
        if (status_code r =? 200)%Z
        then (Ret tt, mk_client url1 (Some true) (Some (sessions w)), w')
        else if (status_code r =? 404)%Z
             then (Raise RuntimeError, mk_client url1 (Some false) None, w')
             else (Ret tt, mk_client url1 (Some false) None, w')
    end.
Proof.
  unfold __init__, __init__body, bind, self_url, new_session, session_get,
    send, set_is_authenticated, set_session, raise.
  destruct (endswith url0 "/api/v2/"); cbn [negb url sent sessions];
    (destruct (server (sent w) _) as [r|]; [|reflexivity]);
    destruct (status_code r =? 200)%Z; try reflexivity;
    destruct (status_code r =? 404)%Z; reflexivity.
Qed.

(** X1.  The constructor creates one new session and sends exactly one
    request, a GET for ['app/preferences'] on that session.  Status 200
    gives a logged-in object that keeps the session; status 404 raises
    [RuntimeError]; any other status gives, without an exception, an object
    that is not logged in and has no session. *)
Theorem constructor_outcomes :
  forall (url0 : string) (w : World),
    let probe :=
      mk_request (sessions w) GET
        ((if endswith url0 "/api/v2/" then url0 else url0 ++ "/api/v2/")
         ++ "app/preferences") None [] in
    world_of (__init__ server url0 w)
    = mk_world (probe :: sent w) (S (sessions w))
    /\ forall r : http_response,
         server (sent w) probe = Responded r ->
         (status_code r = 200%Z ->
            result_of (__init__ server url0 w) = Ret tt
            /\ _is_authenticated (client_of (__init__ server url0 w))
               = Some true
            /\ session (client_of (__init__ server url0 w))
               = Some (sessions w))
         /\ (status_code r = 404%Z ->
               result_of (__init__ server url0 w) = Raise RuntimeError
               /\ _is_authenticated (client_of (__init__ server url0 w))
                  = Some false)
         /\ (status_code r <> 200%Z -> status_code r <> 404%Z ->
               result_of (__init__ server url0 w) = Ret tt
               /\ _is_authenticated (client_of (__init__ server url0 w))
                  = Some false
               /\ session (client_of (__init__ server url0 w)) = None).
Proof.
  intros url0 w probe. split; [apply init_sends_one|].
  intros r Hr. subst probe. rewrite init_cases. cbv zeta. rewrite Hr.
  split; [|split].
  - intros ->. now cbn.
  - intros ->. now cbn.
  - intros H200 H404.
    apply Z.eqb_neq in H200. apply Z.eqb_neq in H404.
    now rewrite H200, H404.
Qed.

(** What [login] makes of the answer to its request. *)
Lemma login_cases (username password : pyval) (c : Client) (w : World) :
  let rq :=
    mk_request (sessions w) POST (url c ++ "auth/login")
      (Some (PDict [("username", username); ("password", password)])) [] in
  let w' := mk_world (rq :: sent w) (S (sessions w)) in
  login server username password c w
  = match server (sent w) rq with
    | Unreachable =>
        (Raise ConnectionError,
         mk_client (url c) (_is_authenticated c) (Some (sessions w)), w')
    | Responded r =>
        if text r =? "Ok."
        then (Ret PNone,
              mk_client (url c) (Some true) (Some (sessions w)), w')
        else (Ret (PStr (text r)),
              mk_client (url c) (_is_authenticated c) (Some (sessions w)),
              w')
    end.
Proof.
  unfold login, bind, new_session, set_session, self_url, session_post,
    send, set_is_authenticated, ret.
  cbn [url sent sessions _is_authenticated session].
  destruct (server (sent w) _) as [r|]; [|reflexivity].
  now destruct (text r =? "Ok.").
Qed.

(** X7.  [login] decides by the text of the answer alone, whatever its
    status: ['Ok.'] logs the object in and returns [None], any other
    text is returned and leaves [_is_authenticated] as it was.  In both
    cases the object now holds the new session. *)
Theorem login_outcomes :
  forall (username password : pyval) (c : Client) (w : World)
         (r : http_response),
    server (sent w)
      (mk_request (sessions w) POST (url c ++ "auth/login")
         (Some (PDict [("username", username); ("password", password)])) [])
    = Responded r ->
    session (client_of (login server username password c w))
    = Some (sessions w)
    /\ (text r = "Ok." ->
          result_of (login server username password c w) = Ret PNone
          /\ _is_authenticated (client_of (login server username password c w))
             = Some true)
    /\ (text r <> "Ok." ->
          result_of (login server username password c w) = Ret (PStr (text r))
          /\ _is_authenticated (client_of (login server username password c w))
             = _is_authenticated c).
Proof.
  intros username password c w r Hr. rewrite login_cases. cbv zeta.
  rewrite Hr. split; [now destruct (text r =? "Ok.")|]. split.
  - intros ->. now cbn.
  - intros Hne. apply String.eqb_neq in Hne. now rewrite Hne.
Qed.

(** X8.  After a [login] that was answered ['Ok.'], a request of the
    object goes out on the session that [login] opened, whatever session
    and login state the object had before. *)
Theorem login_then_request :
  forall (username password : pyval) (c : Client) (w : World)
         (r : http_response) (endpoint method : string) (data : pyval)
         (kwargs : dict),
    server (sent w)
      (mk_request (sessions w) POST (url c ++ "auth/login")
         (Some (PDict [("username", username); ("password", password)])) [])
    = Responded r ->
    text r = "Ok." ->
    sent (world_of
            (_request server json_loads endpoint method data kwargs
               (client_of (login server username password c w))
               (world_of (login server username password c w))))
    = request_sent (sessions w) (url c) endpoint method data kwargs
        :: mk_request (sessions w) POST (url c ++ "auth/login")
             (Some (PDict [("username", username); ("password", password)]))
             []
        :: sent w.
Proof.
  intros username password c w r endpoint method data kwargs Hr Hok.
  assert (login server username password c w
          = (Ret PNone, mk_client (url c) (Some true) (Some (sessions w)),
             mk_world
               (mk_request (sessions w) POST (url c ++ "auth/login")
                  (Some (PDict [("username", username);
                                ("password", password)])) [] :: sent w)
               (S (sessions w)))) as Hlogin.
  { rewrite login_cases. cbv zeta. now rewrite Hr, Hok. }
  rewrite Hlogin. unfold client_of at 1. unfold world_of at 2.
  cbn [fst snd].
  rewrite (_request_logged_in server json_loads _ _ (sessions w))
    by reflexivity.
  cbv zeta. cbn [url sent sessions]. unfold world_of.
  destruct (server _ (request_sent _ _ _ _ _ _)) as [r'|]; [|reflexivity].
  destruct (is_error_status (status_code r')); [reflexivity|].
  destruct (Nat.eqb (String.length (text r')) 0);
    destruct (json_loads _); reflexivity.
Qed.

End Sessions.

(** ** Objects that can be reached *)

Section ReachableProps.

Variable server : list http_request -> http_request -> net_outcome.
Variable json_loads : string -> option pyval.
Variable json_dumps : pyval -> option string.

Lemma client_of_wrap {A : Type} (m : M A) (f : A -> retval) (c : Client)
    (w : World) :
  client_of (bind m (fun a => ret (f a)) c w) = client_of (m c w).
Proof.
  unfold bind, ret, client_of. now destruct (m c w) as [[[a|e] c1] w1].
Qed.

(** [preferences] returns only on an object that is logged in with a
    session, and its [Proxy] then has these attributes. *)
Lemma preferences_proxy (c : Client) (w : World) (p : Proxy) :
  result_of (preferences server json_loads c w) = Ret p ->
  exists s,
    _is_authenticated c = Some true
    /\ session c = Some s
    /\ proxy_client p
       = mk_client
           (if endswith (url c) "/api/v2/"
            then url c else url c ++ "/api/v2/")
           (Some true) (Some s).
Proof.
  intros Hp. unfold preferences, bind, _get in Hp.
  change (clashes ["self"; "endpoint"; "method"] []) with false in Hp.
  cbv iota in Hp.
  destruct (_is_authenticated c) as [[|]|] eqn:Ha;
    [destruct (session c) as [s|] eqn:Hs|..].
  - exists s. split; [reflexivity|]. split; [reflexivity|].
    rewrite (_request_logged_in server json_loads c w s) in Hp
      by assumption.
    cbv zeta in Hp.
    unfold self_url, self_is_authenticated, self_session, result_of,
      Proxy__init__ in Hp.
    destruct (server (sent w) _) as [r|]; [|discriminate Hp].
    destruct (is_error_status (status_code r)); [discriminate Hp|].
    destruct (Nat.eqb (String.length (text r)) 0);
      destruct (json_loads _); try discriminate Hp;
      rewrite Ha, Hs in Hp; cbv zeta in Hp; cbn [fst snd] in Hp;
      rewrite init_cases in Hp; cbv zeta in Hp;
      (destruct (server _ _) as [r'|]; [|discriminate Hp]);
      (destruct (status_code r' =? 200)%Z;
       [|destruct (status_code r' =? 404)%Z]);
      try discriminate Hp;
      cbn in Hp; injection Hp as <-; reflexivity.
  - destruct (_request_not_ready server json_loads c w "app/preferences"
                "get" (dict_get_default "data" []) (dict_del "data" []))
      as [e He]; [now right|].
    rewrite He in Hp. discriminate Hp.
  - destruct (_request_not_ready server json_loads c w "app/preferences"
                "get" (dict_get_default "data" []) (dict_del "data" []))
      as [e He]; [left; congruence|].
    rewrite He in Hp. discriminate Hp.
  - destruct (_request_not_ready server json_loads c w "app/preferences"
                "get" (dict_get_default "data" []) (dict_del "data" []))
      as [e He]; [left; congruence|].
    rewrite He in Hp. discriminate Hp.
Qed.

Lemma reachable_session (c : Client) :
  reachable server json_loads json_dumps c ->
  _is_authenticated c = Some true ->
  exists s, session c = Some s.
Proof.
  induction 1 as [url0 w | op c w Hc IH | c w p Hc IH Hp].
  - rewrite init_cases. cbv zeta.
    destruct (server (sent w) _) as [r|]; [|discriminate].
    destruct (status_code r =? 200)%Z; [cbn; eauto|].
    destruct (status_code r =? 404)%Z; discriminate.
  - destruct (assigns_attributes op) eqn:Hassign.
    + destruct op; try discriminate; unfold run_call;
        rewrite client_of_wrap.
      * rewrite login_cases. cbv zeta.
        destruct (server (sent w) _) as [r|]; [|cbn; eauto].
        destruct (text r =? "Ok."); cbn; eauto.
      * unfold logout, bind, set_is_authenticated, ret, client_of.
        destruct (frames_get server json_loads "auth/logout" [] c w)
          as [Hcl _].
        unfold client_of in Hcl.
        destruct (_get server json_loads "auth/logout" [] c w)
          as [[[v|e] c1] w1]; simpl in *; subst c1;
          [discriminate | exact IH].
    + now rewrite run_call_leaves_object.
  - destruct (preferences_proxy c w p Hp) as [s [_ [_ Hpc]]].
    rewrite Hpc. cbn. eauto.
Qed.

(** X9.  On every object that can be reached, being logged in comes with
    a session: an authenticated [_request] then always sends its request,
    it cannot fail on a missing attribute. *)
Theorem logged_in_has_session :
  forall (c : Client),
    reachable server json_loads json_dumps c ->
    _is_authenticated c = Some true ->
    exists sid,
      session c = Some sid
      /\ forall w endpoint method data kwargs,
           sent (world_of
                   (_request server json_loads endpoint method data kwargs
                      c w))
           = request_sent sid (url c) endpoint method data kwargs :: sent w.
Proof.
  intros c Hc Hauth.
  destruct (reachable_session c Hc Hauth) as [sid Hsid].
  exists sid. split; [exact Hsid|].
  intros w endpoint method data kwargs.
  rewrite (_request_logged_in server json_loads c w sid) by assumption.
  cbv zeta. destruct (server (sent w) _) as [r|]; [|reflexivity].
  destruct (is_error_status (status_code r)); [reflexivity|].
  destruct (Nat.eqb (String.length (text r)) 0);
    destruct (json_loads _); reflexivity.
Qed.

(** X10.  The [Proxy] that [preferences] returns on an object that can be
    reached has exactly the attributes of that object: the same [url],
    login state and session, although its constructor probed the server on
    a session of its own. *)
Theorem proxy_shares_attributes :
  forall (c : Client) (w : World) (p : Proxy),
    reachable server json_loads json_dumps c ->
    result_of (preferences server json_loads c w) = Ret p ->
    proxy_client p = c.
Proof.
  intros c w p Hc Hp.
  destruct (preferences_proxy c w p Hp) as [s [Ha [Hs Hpc]]].
  rewrite Hpc, (reachable_url server json_loads json_dumps c Hc).
  destruct c as [u a s0]. cbn in *. now subst.
Qed.

End ReachableProps.

(** ** Exceptions and the order of requests *)

Lemma sends_nothing_silent {A : Type} (m : M A) :
  (forall c w, world_of (m c w) = w) -> sends_nothing m.
Proof. intros H c w. now rewrite H. Qed.

Lemma sends_nothing_lift {A : Type} (o : outcome A) : sends_nothing (lift o).
Proof. now apply sends_nothing_silent. Qed.

Lemma sends_nothing_raise {A : Type} (e : exn) : sends_nothing (@raise A e).
Proof. now apply sends_nothing_silent. Qed.

Lemma sends_nothing_self_url : sends_nothing self_url.
Proof. now apply sends_nothing_silent. Qed.

Lemma sends_nothing_set_session (s : nat) : sends_nothing (set_session s).
Proof. now apply sends_nothing_silent. Qed.

Lemma sends_nothing_new_session : sends_nothing new_session.
Proof. now intros c w. Qed.

Lemma orderly_sends_nothing {A : Type} (allowed : exn -> bool) (m : M A) :
  sends_nothing m -> orderly allowed m.
Proof. intros H c w e _. left. apply H. Qed.

Lemma orderly_bind_quiet {A B : Type} (allowed : exn -> bool) (m : M A)
    (k : A -> M B) :
  sends_nothing m ->
  (forall a, orderly allowed (k a)) ->
  orderly allowed (bind m k).
Proof.
  intros Hm Hk c w e. specialize (Hm c w).
  unfold bind, result_of, world_of in *.
  destruct (m c w) as [[[a|e0] c1] w1]; cbn [fst snd] in *.
  - intros He. destruct (Hk a c1 w1 e He) as [Hs | Hal].
    + left. unfold world_of in Hs. congruence.
    + now right.
  - intros _. now left.
Qed.

Lemma orderly_bind_safe {A B : Type} (allowed : exn -> bool) (m : M A)
    (k : A -> M B) :
  orderly allowed m ->
  (forall a, never_raises (k a)) ->
  orderly allowed (bind m k).
Proof.
  intros Hm Hk c w e. specialize (Hm c w).
  unfold bind, result_of, world_of in *.
  destruct (m c w) as [[[a|e0] c1] w1]; cbn [fst snd] in *.
  - intros He. destruct (Hk a c1 w1) as [b Hb].
    unfold result_of in Hb. congruence.
  - intros [= <-]. now apply Hm.
Qed.

Lemma orderly_weaken {A : Type} (allowed allowed' : exn -> bool) (m : M A) :
  (forall e, allowed e = true -> allowed' e = true) ->
  orderly allowed m -> orderly allowed' m.
Proof.
  intros Himp Hm c w e He. destruct (Hm c w e He); auto.
Qed.

Lemma never_raises_ret {A : Type} (a : A) : never_raises (ret a).
Proof. intros c w. now exists a. Qed.

Section Taxonomy.

Variable server : list http_request -> http_request -> net_outcome.
Variable json_loads : string -> option pyval.
Variable json_dumps : pyval -> option string.

Lemma orderly_send (rq : http_request) :
  orderly transport_error (send server rq).
Proof.
  intros c w e. unfold send, result_of.
  destruct (server (sent w) rq); cbn; [discriminate|].
  intros [= <-]. now right.
Qed.

Lemma orderly_request (endpoint method : string) (data : pyval)
    (kwargs : dict) :
  orderly response_error
    (_request server json_loads endpoint method data kwargs).
Proof.
  intros c w e.
  destruct (_is_authenticated c) as [[|]|] eqn:Ha;
    [destruct (session c) as [sid|] eqn:Hs|..].
  - rewrite (_request_logged_in server json_loads c w sid) by assumption.
    cbv zeta. unfold result_of.
    destruct (server (sent w) _) as [r|]; [|intros [= <-]; now right].
    unfold is_error_status.
    destruct ((400 <=? status_code r)%Z && (status_code r <? 600)%Z) eqn:Hst.
    + intros [= <-]. right. unfold response_error. cbn. now rewrite Hst.
    + destruct (Nat.eqb (String.length (text r)) 0).
      * destruct (json_loads "{}"); [discriminate|].
        intros [= <-]. now right.
      * destruct (json_loads (text r)); discriminate.
  - destruct (_request_not_ready server json_loads c w endpoint method
                data kwargs) as [e' He']; [now right|].
    rewrite He'. now left.
  - destruct (_request_not_ready server json_loads c w endpoint method
                data kwargs) as [e' He']; [left; congruence|].
    rewrite He'. now left.
  - destruct (_request_not_ready server json_loads c w endpoint method
                data kwargs) as [e' He']; [left; congruence|].
    rewrite He'. now left.
Qed.

Lemma orderly_get (endpoint : string) (kwargs : dict) :
  orderly response_error (_get server json_loads endpoint kwargs).
Proof.
  unfold _get. destruct (clashes _ kwargs).
  - apply orderly_sends_nothing, sends_nothing_raise.
  - apply orderly_request.
Qed.

Lemma orderly_post (endpoint : string) (data : pyval) (kwargs : dict) :
  orderly response_error (_post server json_loads endpoint data kwargs).
Proof.
  unfold _post. destruct (clashes _ kwargs).
  - apply orderly_sends_nothing, sends_nothing_raise.
  - apply orderly_request.
Qed.

Lemma orderly_login (username password : pyval) :
  orderly response_error (login server username password).
Proof.
  apply (orderly_weaken transport_error);
    [intros e He; unfold response_error; now rewrite He|].
  unfold login.
  apply orderly_bind_quiet; [apply sends_nothing_new_session|]. intros s.
  apply orderly_bind_quiet; [apply sends_nothing_set_session|]. intros _.
  apply orderly_bind_quiet; [apply sends_nothing_self_url|]. intros u.
  apply orderly_bind_safe; [apply orderly_send|]. intros r c w.
  destruct (text r =? "Ok."); eexists; reflexivity.
Qed.

Lemma orderly_logout : orderly response_error (logout server json_loads).
Proof.
  unfold logout. apply orderly_bind_safe; [apply orderly_get|].
  intros v c w. eexists. reflexivity.
Qed.

(** The exceptions of [preferences]: those of its request, those of the
    probe of the [Proxy], and [RuntimeError] when the probe finds 404. *)
Lemma orderly_preferences :
  orderly (fun e => response_error e
                    || match e with RuntimeError => true | _ => false end)
    (preferences server json_loads).
Proof.
  intros c w e. unfold preferences, bind, _get.
  change (clashes ["self"; "endpoint"; "method"] []) with false.
  cbv iota.
  destruct (_is_authenticated c) as [[|]|] eqn:Ha;
    [destruct (session c) as [s|] eqn:Hs|..].
  - rewrite (_request_logged_in server json_loads c w s) by assumption.
    cbv zeta.
    unfold self_url, self_is_authenticated, self_session, result_of,
      Proxy__init__.
    destruct (server (sent w) _) as [r|]; [|intros [= <-]; now right].
    unfold is_error_status.
    destruct ((400 <=? status_code r)%Z && (status_code r <? 600)%Z) eqn:Hst.
    { intros [= <-]. right. unfold response_error. cbn. now rewrite Hst. }
    destruct (Nat.eqb (String.length (text r)) 0);
      [destruct (json_loads "{}"); [|intros [= <-]; now right]
      |destruct (json_loads (text r))];
      rewrite Ha; cbv beta iota; rewrite Hs;
      cbv beta iota zeta; cbn [fst snd];
      rewrite init_cases; cbv zeta;
      (destruct (server _ _) as [r'|]; [|intros [= <-]; now right]);
      (destruct (status_code r' =? 200)%Z;
       [|destruct (status_code r' =? 404)%Z]);
      cbn; try discriminate; intros [= <-]; now right.
  - destruct (_request_not_ready server json_loads c w "app/preferences"
                "get" (dict_get_default "data" []) (dict_del "data" []))
      as [e' He']; [now right|].
    rewrite He'. now left.
  - destruct (_request_not_ready server json_loads c w "app/preferences"
                "get" (dict_get_default "data" []) (dict_del "data" []))
      as [e' He']; [left; congruence|].
    rewrite He'. now left.
  - destruct (_request_not_ready server json_loads c w "app/preferences"
                "get" (dict_get_default "data" []) (dict_del "data" []))
      as [e' He']; [left; congruence|].
    rewrite He'. now left.
Qed.

Ltac order_step :=
  cbv beta zeta;
  lazymatch goal with
  | |- orderly _ (_get _ _ _ _) => apply orderly_get
  | |- orderly _ (_post _ _ _ _ _) => apply orderly_post
  | |- orderly _ (bind (lift _) _) =>
      apply orderly_bind_quiet; [apply sends_nothing_lift | intros ?]
  | |- orderly _ (raise _) =>
      apply orderly_sends_nothing; apply sends_nothing_raise
  | |- orderly _ (match json_dumps ?v with _ => _ end) =>
      destruct (json_dumps v)
  | |- orderly _ (if ?b then _ else _) => destruct b
  end.

Lemma orderly_run_call (op : call) :
  orderly (fun e => response_error e
                    || match e with
                       | RuntimeError => is_preferences op
                       | _ => false
                       end)
    (run_call server json_loads json_dumps op).
Proof.
  destruct op; unfold run_call;
    (apply orderly_bind_safe; [|intros ?; apply never_raises_ret]);
    lazymatch goal with
    | |- orderly _ (preferences _ _) => exact orderly_preferences
    | |- _ =>
        apply (orderly_weaken response_error);
        [intros e He; now rewrite He|];
        lazymatch goal with
        | |- orderly _ (login _ _ _) => apply orderly_login
        | |- orderly _ (logout _ _) => apply orderly_logout
        | |- _ =>
            unfold qbittorrent_version, api_version,
            shutdown, set_preferences, get_default_save_path, get_log,
            get_peer_log, get_sync_maindata, get_sync_torrentPeers,
            global_transfer_info, get_alternative_speed_status,
            toggle_alternative_speed, get_global_download_limit,
            set_global_download_limit, get_global_upload_limit,
            set_global_upload_limit, torrents, get_torrent,
            get_torrent_trackers,
            get_torrent_webseeds, get_torrent_files, get_torrent_pieces_state,
            get_torrent_pieces_hashes, pause, pause_all, resume, resume_all,
            delete, delete_permanently, recheck, recheck_all, reannounce,
            reannounce_all, download_from_link, download_from_file,
            add_trackers,
            increase_priority, decrease_priority, set_max_priority,
            set_min_priority, set_file_priority, get_torrent_download_limit,
            set_torrent_download_limit, set_torrent_share_limit,
            get_torrent_upload_limit, set_torrent_upload_limit, set_location,
            set_torrent_name, set_category, add_category, edit_category,
            remove_category, set_automatic_torrent, set_automatic_torrent_all,
            toggle_sequential_download, toggle_first_last_piece_priority,
            force_start, set_super_seeding, set_super_seeding_all, add_folder,
            add_feed, remove_item, get_item, set_rule, rename_rule, remove_rule,
            get_rules;
            repeat order_step
        end
    end.
Qed.

(** X11.  [LoginRequired], [TypeError] and [AttributeError] come before
    any request: a public call that ends in one of them has sent
    nothing. *)
Theorem checks_precede_requests :
  forall (op : call) (c : Client) (w : World) (e : exn),
    result_of (run_call server json_loads json_dumps op c w) = Raise e ->
    e = LoginRequired \/ e = TypeError \/ e = AttributeError ->
    sent (world_of (run_call server json_loads json_dumps op c w)) = sent w.
Proof.
  intros op c w e He Hown.
  destruct (orderly_run_call op c w e He) as [Hs | Hal]; [exact Hs|].
  destruct Hown as [-> | [-> | ->]]; discriminate Hal.
Qed.

End Taxonomy.

(** ** The renaming of [torrents] when both names are given *)

Lemma torrents_params_last_filter :
  forall (before after : dict) (name : string) (value : pyval),
    sent_name name = "filter" ->
    (forall k, In k (map fst after) -> k <> "status" /\ k <> "filter") ->
    dict_get "filter"
      (torrents_params (before ++ (name, value) :: after)%list)
    = Some value.
Proof.
  clear lower.
  intros before after name value Hname Hafter.
  unfold torrents_params. rewrite fold_left_app. cbn [fold_left].
  rewrite torrents_fold_untouched.
  - unfold torrents_round. cbn [fst snd]. rewrite Hname.
    apply dict_get_set_same.
  - intros Hin. apply in_map_iff in Hin as [[k v] [Hk Hin]].
    cbn [fst] in Hk. apply sent_name_filter in Hk.
    destruct (Hafter k) as [Hs Hf].
    + change k with (fst (k, v)). now apply in_map.
    + destruct Hk; contradiction.
Qed.

(** X13.  Of the keywords that [torrents] sends as ['filter'] (['status']
    and ['filter'] itself) the one given last decides the value in the
    query of the request. *)
Theorem torrents_last_filter_wins :
  forall (server : list http_request -> http_request -> net_outcome)
         (json_loads : string -> option pyval)
         (before after : dict) (name : string) (value : pyval)
         (c : Client) (w : World),
    sent_name name = "filter" ->
    (forall k, In k (map fst after) -> k <> "status" /\ k <> "filter") ->
    dict_has "self" (before ++ (name, value) :: after)%list = false ->
    exists params,
      torrents server json_loads (before ++ (name, value) :: after)%list c w
      = _get server json_loads "torrents/info" [("params", PDict params)] c w
      /\ (forall sid,
            _is_authenticated c = Some true ->
            session c = Some sid ->
            sent (world_of
                    (torrents server json_loads
                       (before ++ (name, value) :: after)%list c w))
            = mk_request sid GET (url c ++ "torrents/info") None
                [("params", PDict params)] :: sent w)
      /\ dict_get "filter" params = Some value.
Proof.
  intros server json_loads before after name value c w Hname Hafter _.
  exists (torrents_params (before ++ (name, value) :: after)%list).
  destruct (torrents_sends server json_loads
              (before ++ (name, value) :: after)%list c w) as [Heq Hsent].
  split; [exact Heq|]. split; [exact Hsent|].
  now apply torrents_params_last_filter.
Qed.

(** ** The form fields of [download_from_link] *)

(** X14.  The field ['urls'] that [download_from_link] posts is made from
    [link] alone, whatever keywords are given: the link itself, or the
    items of a list of strings joined by line feeds.  A list with an item
    that is no string raises [TypeError] and nothing is sent. *)
Theorem download_from_link_urls :
  forall (server : list http_request -> http_request -> net_outcome)
         (json_loads : string -> option pyval)
         (link : pyval) (kwargs : dict) (c : Client) (w : World),
    clashes ["self"; "link"] kwargs = false ->
    (forall ss, link = PList (map PStr ss) ->
       exists options,
         download_from_link server json_loads link kwargs c w
         = _post server json_loads "torrents/add" (PDict options)
             [("files", PDict [("_dummy", PTuple [PNone; PStr "_dummy"])])]
             c w
         /\ (forall sid,
               _is_authenticated c = Some true ->
               session c = Some sid ->
               sent (world_of
                       (download_from_link server json_loads link kwargs c w))
               = mk_request sid POST (url c ++ "torrents/add")
                   (Some (PDict options))
                   [("files",
                     PDict [("_dummy", PTuple [PNone; PStr "_dummy"])])]
                   :: sent w)
         /\ dict_get "urls" options = Some (PStr (join LF ss)))
    /\ ((forall l, link <> PList l) ->
        exists options,
          download_from_link server json_loads link kwargs c w
          = _post server json_loads "torrents/add" (PDict options)
              [("files", PDict [("_dummy", PTuple [PNone; PStr "_dummy"])])]
              c w
          /\ (forall sid,
                _is_authenticated c = Some true ->
                session c = Some sid ->
                sent (world_of
                        (download_from_link server json_loads link kwargs
                           c w))
                = mk_request sid POST (url c ++ "torrents/add")
                    (Some (PDict options))
                    [("files",
                      PDict [("_dummy", PTuple [PNone; PStr "_dummy"])])]
                    :: sent w)
          /\ dict_get "urls" options = Some link)
    /\ (forall l, link = PList l -> (forall ss, l <> map PStr ss) ->
          download_from_link server json_loads link kwargs c w
          = (Raise TypeError, c, w)).
Proof.
  intros server json_loads link kwargs c w _.
  destruct (download_from_link_options_urls link kwargs)
    as [Hlist [Hone Hbad]].
  split; [|split].
  - intros ss Hss. specialize (Hlist ss Hss).
    destruct (download_from_link_sends server json_loads link kwargs _ c w
                Hlist) as [Heq Hsent].
    eexists. split; [exact Heq|]. split; [exact Hsent|].
    apply dict_get_set_same.
  - intros Hnl. specialize (Hone Hnl).
    destruct (download_from_link_sends server json_loads link kwargs _ c w
                Hone) as [Heq Hsent].
    eexists. split; [exact Heq|]. split; [exact Hsent|].
    apply dict_get_set_same.
  - intros l Hl Hno. apply download_from_link_raises.
    now apply (Hbad l).
Qed.

(** ** The files and fields of [download_from_file] *)

Lemma torrents_key_inj (i j : nat) : torrents_key i = torrents_key j -> i = j.
Proof.
  unfold torrents_key. intros H. cbn [append] in H.
  injection H as H.
  apply (f_equal NilEmpty.uint_of_string) in H.
  rewrite !NilEmpty.usu in H. injection H as H.
  apply (f_equal Nat.of_uint) in H.
  now rewrite !Unsigned.of_to in H.
Qed.

Lemma torrents_key_eqb (i j : nat) :
  i <> j -> (torrents_key i =? torrents_key j) = false.
Proof.
  intros Hne. apply String.eqb_neq. intros H.
  now apply torrents_key_inj in H.
Qed.

Lemma dict_set_fresh (k : string) (v : pyval) (d : dict) :
  dict_get k d = None -> dict_set k v d = (d ++ [(k, v)])%list.
Proof.
  induction d as [|[k' v'] d IH]; simpl; [reflexivity|].
  destruct (k' =? k); [discriminate|]. intros H. now rewrite IH.
Qed.

Lemma dict_get_app (k : string) (d1 d2 : dict) :
  dict_get k (d1 ++ d2)%list
  = match dict_get k d1 with
    | Some v => Some v
    | None => dict_get k d2
    end.
Proof.
  induction d1 as [|[k' v'] d1 IH]; simpl; [reflexivity|].
  now destruct (k' =? k).
Qed.

Lemma numbered_files_below (fs : list pyval) :
  forall start j,
    j < start -> dict_get (torrents_key j) (numbered_files start fs) = None.
Proof.
  induction fs as [|f fs IH]; intros start j Hlt; [reflexivity|].
  cbn [numbered_files dict_get].
  change ("torrents" ++ NilEmpty.string_of_uint (Nat.to_uint start))
    with (torrents_key start).
  rewrite torrents_key_eqb by lia. apply IH. lia.
Qed.

Lemma numbered_files_lookup (fs : list pyval) :
  forall start j,
    dict_get (torrents_key (start + j)) (numbered_files start fs)
    = nth_error fs j.
Proof.
  induction fs as [|f fs IH]; intros start j.
  - now destruct j.
  - cbn [numbered_files dict_get].
    change ("torrents" ++ NilEmpty.string_of_uint (Nat.to_uint start))
      with (torrents_key start).
    destruct j as [|j].
    + rewrite Nat.add_0_r, String.eqb_refl. reflexivity.
    + rewrite torrents_key_eqb by lia.
      replace (start + S j) with (S start + j) by lia. apply IH.
Qed.

Lemma enumerate_files_numbered (fs : list pyval) :
  forall i acc,
    (forall j, i <= j -> dict_get (torrents_key j) acc = None) ->
    enumerate_files i fs acc = (acc ++ numbered_files i fs)%list.
Proof.
  induction fs as [|f fs IH]; intros i acc Hfresh.
  - cbn. now rewrite app_nil_r.
  - cbn [enumerate_files numbered_files].
    change (dict_update acc [(torrents_key i, f)])
      with (dict_set (torrents_key i) f acc).
    rewrite dict_set_fresh by (apply Hfresh; lia).
    rewrite IH.
    + now rewrite <- app_assoc.
    + intros j Hj. rewrite dict_get_app, Hfresh by lia.
      cbn [dict_get]. now rewrite torrents_key_eqb by lia.
Qed.

Lemma numbered_files_length (fs : list pyval) :
  forall start, List.length (numbered_files start fs) = List.length fs.
Proof.
  induction fs as [|f fs IH]; intros start; [reflexivity|].
  cbn [numbered_files List.length]. f_equal. apply IH.
Qed.

(** X15.  For a list of files [download_from_file] builds the dictionary
    that holds the [i]-th file under the key ['torrents<i>'], in the order
    of the list: the keys are distinct, so no file replaces another and
    each is found under its own key. *)
Theorem download_from_file_numbers_files :
  forall (fs : list pyval),
    enumerate_files 0 fs [] = numbered_files 0 fs
    /\ List.length (enumerate_files 0 fs []) = List.length fs
    /\ forall j,
         dict_get (torrents_key j) (enumerate_files 0 fs []) = nth_error fs j.
Proof.
  intros fs.
  assert (enumerate_files 0 fs [] = numbered_files 0 fs) as Heq
    by (now rewrite enumerate_files_numbered).
  split; [exact Heq|]. rewrite Heq. split.
  - apply numbered_files_length.
  - intros j. exact (numbered_files_lookup fs 0 j).
Qed.

Section FileFields.

Variable server : list http_request -> http_request -> net_outcome.
Variable json_loads : string -> option pyval.

(** X16.  [download_from_file] posts the keywords it was given, with one
    change: when ['save_path'] is truthy its value is sent as ['savepath'],
    also when a ['savepath'] was given.  When ['save_path'] is missing or
    falsy the keywords are sent as they are. *)
Theorem download_from_file_fields :
  forall (file_buffer : pyval) (kwargs : dict) (c : Client) (w : World),
    exists data files,
      download_from_file server json_loads file_buffer kwargs c w
      = _post server json_loads "torrents/add" (PDict data)
          [("files", PDict files)] c w
      /\ (forall fs, file_buffer = PList fs -> files = numbered_files 0 fs)
      /\ ((forall fs, file_buffer <> PList fs) ->
          files = [("torrents", file_buffer)])
      /\ (truthy (dict_get_default "save_path" kwargs) = true ->
          dict_get "savepath" data = dict_get "save_path" kwargs)
      /\ (truthy (dict_get_default "save_path" kwargs) = false ->
          data = kwargs)
      /\ (forall k, k <> "savepath" -> dict_get k data = dict_get k kwargs).
Proof.
  intros file_buffer kwargs c w.
  eexists. eexists. split; [reflexivity|].
  split; [|split; [|split; [|split]]].
  - intros fs ->. now rewrite enumerate_files_numbered.
  - intros Hnl. destruct file_buffer; try reflexivity. now destruct (Hnl l).
  - intros Ht. rewrite Ht.
    change (dict_update kwargs
              [("savepath", dict_get_default "save_path" kwargs)])
      with (dict_set "savepath" (dict_get_default "save_path" kwargs) kwargs).
    rewrite dict_get_set_same. symmetry. now apply truthy_get_default.
  - intros Ht. now rewrite Ht.
  - intros k Hk. destruct (truthy (dict_get_default "save_path" kwargs));
      [|reflexivity].
    change (dict_update kwargs
              [("savepath", dict_get_default "save_path" kwargs)])
      with (dict_set "savepath" (dict_get_default "save_path" kwargs) kwargs).
    apply dict_get_set_other. congruence.
Qed.

End FileFields.

(** ** Calls for all torrents, the [Proxy], and the endpoints *)

Section Variants.

Variable server : list http_request -> http_request -> net_outcome.
Variable json_loads : string -> option pyval.
Variable json_dumps : pyval -> option string.

(** X17.  The methods for all torrents are the methods for a list of
    hashes at the word ['all']: given ['all'] in any mix of cases, [pause],
    [resume], [recheck], [reannounce], [set_automatic_torrent] and
    [set_super_seeding] do what their [_all] variants do. *)
Theorem all_variants_agree :
  forall (s : string) (c : Client) (w : World) (flag : pyval),
    lower s = "all" ->
    pause server json_loads (PStr s) c w = pause_all server json_loads c w
    /\ resume server json_loads (PStr s) c w
       = resume_all server json_loads c w
    /\ recheck server json_loads (PStr s) c w
       = recheck_all server json_loads c w
    /\ reannounce server json_loads (PStr s) c w
       = reannounce_all server json_loads c w
    /\ set_automatic_torrent server json_loads (PStr s) flag c w
       = set_automatic_torrent_all server json_loads flag c w
    /\ set_super_seeding server json_loads (PStr s) flag c w
       = set_super_seeding_all server json_loads flag c w.
Proof.
  intros s c w flag Hall.
  unfold pause, resume, recheck, reannounce, set_automatic_torrent,
    set_super_seeding, pause_all, resume_all, recheck_all, reannounce_all,
    set_automatic_torrent_all, set_super_seeding_all, bind, lift,
    _process_infohash_list, py_lower.
  rewrite Hall. repeat split.
Qed.



(** X19.  On an object that can be reached, every request of a public
    call goes to [self.url] followed by the endpoint written in that
    method, and to no other address. *)
Theorem calls_reach_their_endpoint :
  forall (op : call) (c : Client) (w : World),
    reachable server json_loads json_dumps c ->
    exists new,
      dispatched w (world_of (run_call server json_loads json_dumps op c w))
        new
      /\ Forall (fun rq => rq_url rq = url c ++ endpoint_of op) new.
Proof.
  intros op c w Hc.
  pose proof (reachable_url server json_loads json_dumps c Hc) as Hends.
  assert (endswith (url c) "/api/v2/" = false ->
          endpoint_of op = "/api/v2/" ++ endpoint_of op) as Hok'
    by congruence.
  destruct (sends_to_run_call server json_loads json_dumps
              (eq (endpoint_of op)) (url c) op eq_refl Hok' c w eq_refl)
    as [_ [new [Hs Hf]]].
  exists new. split; [exact Hs|].
  eapply Forall_impl; [|exact Hf]. now intros rq [endpoint [<- Hrq]].
Qed.

End Variants.

End Python.

(** * The development on concrete inputs *)

Example lower_example : ascii_lower "A1b2C3dEF" = "a1b2c3def".
Proof. reflexivity. Qed.

Example process_infohash_list_example :
  _process_infohash_list ascii_lower
    (PList [PStr "AbC"; PStr "DEF"; PStr "0a"])
  = Ret [("hashes", PStr "abc|def|0a")].
Proof. reflexivity. Qed.

(** ** The helper on concrete inputs *)

Example init_appends_suffix :
  __init__ (const_server (mk_response 200 "{}")) "http://localhost:8080"
    fresh_world
  = (Ret tt, logged_in,
     mk_world
       [mk_request 0 GET "http://localhost:8080/api/v2/app/preferences"
          None []] 1).
Proof. reflexivity. Qed.

Example init_keeps_suffix_and_raises :
  __init__ (const_server (mk_response 404 "")) "http://localhost:8080/api/v2/"
    fresh_world
  = (Raise RuntimeError, logged_out,
     mk_world
       [mk_request 0 GET "http://localhost:8080/api/v2/app/preferences"
          None []] 1).
Proof. reflexivity. Qed.

Example preferences_sends_twice :
  map rq_session
    (sent (world_of (preferences (const_server (mk_response 200 "{}"))
                       sample_json_loads logged_in one_session)))
  = [1; 0].
Proof. reflexivity. Qed.

Example get_item_sends_no_data :
  sent (world_of (get_item (const_server (mk_response 200 "[]"))
                    sample_json_loads (PBool true) logged_in one_session))
  = [mk_request 0 GET "http://localhost:8080/api/v2/rss/items" None []].
Proof. reflexivity. Qed.

Example raw_text_is_returned :
  result_of (_request (const_server (mk_response 200 "v4.1.5"))
               sample_json_loads "app/version" "get" PNone [] logged_in
               one_session)
  = Ret (PStr "v4.1.5").
Proof. reflexivity. Qed.

(** C2 as first stated fails: an empty body that comes with status 404
    makes [_request] raise, it does not return the empty dictionary. *)
Lemma empty_body_with_error_status_raises :
  _is_authenticated logged_in = Some true
  /\ session logged_in = Some 0
  /\ const_server (mk_response 404 "") (sent one_session)
       (request_sent 0 (url logged_in) "app/version" "get" PNone [])
     = Responded (mk_response 404 "")
  /\ text (mk_response 404 "") = ""
  /\ sample_json_loads "{}" = Some (PDict [])
  /\ _request (const_server (mk_response 404 "")) sample_json_loads
       "app/version" "get" PNone [] logged_in one_session
     = (Raise (HTTPError 404), logged_in,
        mk_world
          [mk_request 0 GET "http://localhost:8080/api/v2/app/version"
             None []] 1)
  /\ result_of (_request (const_server (mk_response 404 "")) sample_json_loads
                  "app/version" "get" PNone [] logged_in one_session)
     <> Ret (PDict []).
Proof. repeat split. discriminate. Qed.

(** ** The theorems on concrete inputs *)

Lemma request_requires_login_witness :
  _is_authenticated logged_out = Some false
  /\ _request (const_server (mk_response 200 "{}")) sample_json_loads
       "app/version" "get" PNone [] logged_out fresh_world
     = (Raise LoginRequired, logged_out, fresh_world).
Proof.
  split; [reflexivity|].
  apply (proj1
           (request_requires_login (const_server (mk_response 200 "{}"))
              sample_json_loads logged_out fresh_world "app/version" "get"
              PNone [] eq_refl)).
Defined.

Lemma request_surfaces_http_error_witness :
  is_error_status 503 = true
  /\ _request (const_server (mk_response 503 "busy")) sample_json_loads
       "torrents/pause" "post" (PDict [("hashes", PStr "all")]) []
       logged_in one_session
     = (Raise (HTTPError 503), logged_in,
        mk_world
          [mk_request 0 POST "http://localhost:8080/api/v2/torrents/pause"
             (Some (PDict [("hashes", PStr "all")])) []] 1).
Proof.
  split; [reflexivity|].
  apply (request_surfaces_http_error (const_server (mk_response 503 "busy"))
           sample_json_loads logged_in one_session 0 "torrents/pause" "post"
           (PDict [("hashes", PStr "all")]) [] (mk_response 503 "busy"));
    reflexivity.
Defined.

Lemma request_decodes_response_witness :
  is_error_status 200 = false
  /\ sample_json_loads "{}" = Some (PDict [])
  /\ sample_json_loads "" = None
  /\ result_of (_request (const_server (mk_response 200 "")) sample_json_loads
                  "app/shutdown" "get" PNone [] logged_in one_session)
     = Ret (PDict []).
Proof.
  split; [reflexivity|]. split; [reflexivity|]. split; [reflexivity|].
  apply (proj1
           (request_decodes_response (const_server (mk_response 200 ""))
              sample_json_loads logged_in one_session 0 "app/shutdown" "get"
              PNone [] (mk_response 200 "")
              eq_refl eq_refl eq_refl eq_refl eq_refl eq_refl)).
  reflexivity.
Defined.

Lemma request_routes_by_method_witness :
  sent (world_of (_request (const_server (mk_response 200 "{}"))
                    sample_json_loads "log/peers" "put"
                    (PDict [("last_known_id", PInt 3)]) [] logged_in
                    one_session))
  = mk_request 0 POST (url logged_in ++ "log/peers")
      (Some (PDict [("last_known_id", PInt 3)])) [] :: sent one_session.
Proof.
  apply (proj1 (proj2
           (request_routes_by_method (const_server (mk_response 200 "{}"))
              sample_json_loads logged_in one_session 0 "log/peers" "put"
              (PDict [("last_known_id", PInt 3)]) [] eq_refl eq_refl))).
  discriminate.
Defined.

Lemma set_file_priority_validates_witness :
  py_in_ints (PInt 3) [0; 1; 2; 7]%Z = false
  /\ set_file_priority ascii_lower
       (const_server (mk_response 200 "{}")) sample_json_loads
       (PStr "ABCD") (PInt 0) (PInt 3) logged_in one_session
     = (Raise ValueError, logged_in, one_session)
  /\ isinstance_int (PStr "0") = false
  /\ set_file_priority ascii_lower
       (const_server (mk_response 200 "{}")) sample_json_loads
       (PStr "ABCD") (PStr "0") (PInt 7) logged_in one_session
     = (Raise TypeError, logged_in, one_session).
Proof.
  split; [reflexivity|]. split; [|split; [reflexivity|]].
  - apply (proj1
             (set_file_priority_validates ascii_lower
                (const_server (mk_response 200 "{}")) sample_json_loads
                (PStr "ABCD") (PInt 0) (PInt 3) logged_in one_session)).
    reflexivity.
  - apply (proj2
             (set_file_priority_validates ascii_lower
                (const_server (mk_response 200 "{}")) sample_json_loads
                (PStr "ABCD") (PStr "0") (PInt 7) logged_in one_session));
      reflexivity.
Defined.



Lemma url_ends_with_api_prefix_witness :
  reachable ascii_lower (const_server (mk_response 200 "{}")) sample_json_loads
    sample_json_dumps
    (client_of (run_call ascii_lower (const_server (mk_response 200 "{}"))
                  sample_json_loads sample_json_dumps Call_logout
                  (client_of (__init__ (const_server (mk_response 200 "{}"))
                                "http://localhost:8080" fresh_world))
                  one_session))
  /\ endswith
       (url (client_of (run_call ascii_lower
                          (const_server (mk_response 200 "{}"))
                          sample_json_loads sample_json_dumps Call_logout
                          (client_of
                             (__init__ (const_server (mk_response 200 "{}"))
                                "http://localhost:8080" fresh_world))
                          one_session)))
       "/api/v2/" = true.
Proof.
  assert (reachable ascii_lower
            (const_server (mk_response 200 "{}")) sample_json_loads
            sample_json_dumps
            (client_of (run_call ascii_lower
                          (const_server (mk_response 200 "{}"))
                          sample_json_loads sample_json_dumps Call_logout
                          (client_of
                             (__init__ (const_server (mk_response 200 "{}"))
                                "http://localhost:8080" fresh_world))
                          one_session))) as Hreach.
  { apply reach_call. apply reach_init. }
  split; [exact Hreach|].
  apply (proj2 (proj2 (proj2
           (url_ends_with_api_prefix ascii_lower
              (const_server (mk_response 200 "{}"))
              sample_json_loads sample_json_dumps "http://localhost:8080"
              fresh_world)))).
  exact Hreach.
Defined.

(** ** The further theorems on concrete inputs *)

Lemma constructor_outcomes_witness :
  const_server (mk_response 403 "Forbidden") (sent fresh_world)
    (mk_request (sessions fresh_world) GET
       ((if endswith "http://localhost:8080" "/api/v2/"
         then "http://localhost:8080"
         else "http://localhost:8080" ++ "/api/v2/") ++ "app/preferences")
       None [])
  = Responded (mk_response 403 "Forbidden")
  /\ world_of (__init__ (const_server (mk_response 403 "Forbidden"))
                 "http://localhost:8080" fresh_world)
     = mk_world
         [mk_request 0 GET "http://localhost:8080/api/v2/app/preferences"
            None []] 1
  /\ result_of (__init__ (const_server (mk_response 403 "Forbidden"))
                  "http://localhost:8080" fresh_world) = Ret tt
  /\ _is_authenticated
       (client_of (__init__ (const_server (mk_response 403 "Forbidden"))
                     "http://localhost:8080" fresh_world)) = Some false
  /\ session
       (client_of (__init__ (const_server (mk_response 403 "Forbidden"))
                     "http://localhost:8080" fresh_world)) = None.
Proof.
  split; [reflexivity|].
  destruct (constructor_outcomes (const_server (mk_response 403 "Forbidden"))
              "http://localhost:8080" fresh_world) as [Hworld Hcases].
  split; [exact Hworld|].
  apply (proj2 (proj2 (Hcases (mk_response 403 "Forbidden") eq_refl)));
    cbn; lia.
Defined.

Lemma calls_leave_object_witness :
  assigns_attributes (Call_pause (PStr "AB12")) = false
  /\ client_of (run_call ascii_lower (const_server (mk_response 200 ""))
                  sample_json_loads sample_json_dumps
                  (Call_pause (PStr "AB12")) logged_in one_session)
     = logged_in.
Proof.
  split; [reflexivity|].
  apply (calls_leave_object ascii_lower (const_server (mk_response 200 ""))
           sample_json_loads sample_json_dumps (Call_pause (PStr "AB12"))
           logged_in one_session).
  reflexivity.
Defined.

Lemma calls_use_own_session_witness :
  is_login Call_shutdown = false
  /\ is_preferences Call_shutdown = false
  /\ exists new,
       dispatched one_session
         (world_of (run_call ascii_lower (const_server (mk_response 200 ""))
                      sample_json_loads sample_json_dumps Call_shutdown
                      logged_in one_session)) new
       /\ Forall (fun rq => session logged_in = Some (rq_session rq)) new.
Proof.
  split; [reflexivity|]. split; [reflexivity|].
  apply (calls_use_own_session ascii_lower (const_server (mk_response 200 ""))
           sample_json_loads sample_json_dumps Call_shutdown logged_in
           one_session); reflexivity.
Defined.

Lemma calls_refused_when_logged_out_witness :
  is_login Call_get_rules = false
  /\ _is_authenticated logged_out = Some false
  /\ exists e,
       run_call ascii_lower
         (const_server (mk_response 200 "[]")) sample_json_loads
         sample_json_dumps Call_get_rules logged_out fresh_world
       = (Raise e, logged_out, fresh_world).
Proof.
  split; [reflexivity|]. split; [reflexivity|].
  apply (calls_refused_when_logged_out ascii_lower
           (const_server (mk_response 200 "[]"))
           sample_json_loads sample_json_dumps Call_get_rules logged_out
           fresh_world); reflexivity.
Defined.


Lemma login_outcomes_witness :
  const_server (mk_response 200 "Fails.") (sent one_session)
    (mk_request (sessions one_session) POST (url logged_in ++ "auth/login")
       (Some (PDict [("username", PStr "admin"); ("password", PStr "x")]))
       [])
  = Responded (mk_response 200 "Fails.")
  /\ text (mk_response 200 "Fails.") <> "Ok."
  /\ result_of (login (const_server (mk_response 200 "Fails."))
                  (PStr "admin") (PStr "x") logged_in one_session)
     = Ret (PStr "Fails.")
  /\ _is_authenticated
       (client_of (login (const_server (mk_response 200 "Fails."))
                     (PStr "admin") (PStr "x") logged_in one_session))
     = _is_authenticated logged_in.
Proof.
  split; [reflexivity|]. split; [discriminate|].
  apply (proj2 (proj2
           (login_outcomes (const_server (mk_response 200 "Fails."))
              (PStr "admin") (PStr "x") logged_in one_session
              (mk_response 200 "Fails.") eq_refl))).
  discriminate.
Defined.

Lemma login_then_request_witness :
  text (mk_response 200 "Ok.") = "Ok."
  /\ sent (world_of
             (_request (const_server (mk_response 200 "Ok."))
                sample_json_loads "app/version" "get" PNone []
                (client_of (login (const_server (mk_response 200 "Ok."))
                              (PStr "admin") (PStr "x") logged_out
                              fresh_world))
                (world_of (login (const_server (mk_response 200 "Ok."))
                             (PStr "admin") (PStr "x") logged_out
                             fresh_world))))
     = request_sent (sessions fresh_world) (url logged_out) "app/version"
         "get" PNone []
         :: mk_request (sessions fresh_world) POST
              (url logged_out ++ "auth/login")
              (Some (PDict [("username", PStr "admin");
                            ("password", PStr "x")])) []
         :: sent fresh_world.
Proof.
  split; [reflexivity|].
  apply (login_then_request (const_server (mk_response 200 "Ok."))
           sample_json_loads (PStr "admin") (PStr "x") logged_out
           fresh_world (mk_response 200 "Ok.") "app/version" "get" PNone []);
    reflexivity.
Defined.

Lemma logged_in_has_session_witness :
  reachable ascii_lower (const_server (mk_response 200 "{}")) sample_json_loads
    sample_json_dumps
    (client_of (__init__ (const_server (mk_response 200 "{}"))
                  "http://localhost:8080" fresh_world))
  /\ _is_authenticated
       (client_of (__init__ (const_server (mk_response 200 "{}"))
                     "http://localhost:8080" fresh_world)) = Some true
  /\ exists sid,
       session
         (client_of (__init__ (const_server (mk_response 200 "{}"))
                       "http://localhost:8080" fresh_world)) = Some sid.
Proof.
  split; [apply reach_init|]. split; [reflexivity|].
  destruct (logged_in_has_session ascii_lower
              (const_server (mk_response 200 "{}"))
              sample_json_loads sample_json_dumps
              (client_of (__init__ (const_server (mk_response 200 "{}"))
                            "http://localhost:8080" fresh_world))
              (reach_init _ _ _ _ _ _) eq_refl) as [sid [Hsid _]].
  now exists sid.
Defined.

Lemma proxy_shares_attributes_witness :
  reachable ascii_lower (const_server (mk_response 200 "{}")) sample_json_loads
    sample_json_dumps
    (client_of (__init__ (const_server (mk_response 200 "{}"))
                  "http://localhost:8080" fresh_world))
  /\ result_of (preferences (const_server (mk_response 200 "{}"))
                  sample_json_loads
                  (client_of (__init__ (const_server (mk_response 200 "{}"))
                                "http://localhost:8080" fresh_world))
                  one_session)
     = Ret (mk_proxy logged_in (PDict []))
  /\ proxy_client (mk_proxy logged_in (PDict []))
     = client_of (__init__ (const_server (mk_response 200 "{}"))
                    "http://localhost:8080" fresh_world).
Proof.
  split; [apply reach_init|]. split; [reflexivity|].
  apply (proxy_shares_attributes ascii_lower
           (const_server (mk_response 200 "{}"))
           sample_json_loads sample_json_dumps
           (client_of (__init__ (const_server (mk_response 200 "{}"))
                         "http://localhost:8080" fresh_world))
           one_session (mk_proxy logged_in (PDict []))).
  - apply reach_init.
  - reflexivity.
Defined.

Lemma checks_precede_requests_witness :
  result_of (run_call ascii_lower (const_server (mk_response 200 ""))
               sample_json_loads sample_json_dumps
               (Call_download_from_link (PList [PInt 1]) [])
               logged_in one_session) = Raise TypeError
  /\ sent (world_of (run_call ascii_lower
                       (const_server (mk_response 200 ""))
                       sample_json_loads sample_json_dumps
                       (Call_download_from_link (PList [PInt 1]) [])
                       logged_in one_session)) = sent one_session.
Proof.
  split; [reflexivity|].
  apply (checks_precede_requests ascii_lower
           (const_server (mk_response 200 "")) sample_json_loads
           sample_json_dumps (Call_download_from_link (PList [PInt 1]) [])
           logged_in one_session TypeError).
  - reflexivity.
  - right. left. reflexivity.
Defined.

Lemma torrents_last_filter_wins_witness :
  sent_name "status" = "filter"
  /\ dict_has "self"
       ([("filter", PStr "b")] ++
        ("status", PStr "a") :: [("category", PStr "tv")])%list = false
  /\ exists params,
       sent (world_of
               (torrents (const_server (mk_response 200 "[]"))
                  sample_json_loads
                  ([("filter", PStr "b")] ++
                   ("status", PStr "a") :: [("category", PStr "tv")])%list
                  logged_in one_session))
       = mk_request 0 GET (url logged_in ++ "torrents/info") None
           [("params", PDict params)] :: sent one_session
       /\ dict_get "filter" params = Some (PStr "a").
Proof.
  split; [reflexivity|]. split; [reflexivity|].
  destruct (torrents_last_filter_wins (const_server (mk_response 200 "[]"))
              sample_json_loads [("filter", PStr "b")]
              [("category", PStr "tv")] "status" (PStr "a")
              logged_in one_session eq_refl)
    as [params [_ [Hsent Hfilter]]].
  - intros k [<- | []]. split; discriminate.
  - reflexivity.
  - exists params. split; [exact (Hsent 0 eq_refl eq_refl) | exact Hfilter].
Defined.

Lemma download_from_link_urls_witness :
  clashes ["self"; "link"] [("urls", PStr "http://example.org/a.torrent")]
  = false
  /\ exists options,
       sent (world_of
               (download_from_link (const_server (mk_response 200 ""))
                  sample_json_loads
                  (PList (map PStr ["magnet:a"; "magnet:b"]))
                  [("urls", PStr "http://example.org/a.torrent")]
                  logged_in one_session))
       = mk_request 0 POST (url logged_in ++ "torrents/add")
           (Some (PDict options))
           [("files", PDict [("_dummy", PTuple [PNone; PStr "_dummy"])])]
           :: sent one_session
       /\ dict_get "urls" options
          = Some (PStr (join LF ["magnet:a"; "magnet:b"])).
Proof.
  split; [reflexivity|].
  destruct (proj1
              (download_from_link_urls (const_server (mk_response 200 ""))
                 sample_json_loads
                 (PList (map PStr ["magnet:a"; "magnet:b"]))
                 [("urls", PStr "http://example.org/a.torrent")]
                 logged_in one_session eq_refl)
              ["magnet:a"; "magnet:b"] eq_refl)
    as [options [_ [Hsent Hurls]]].
  exists options. split; [exact (Hsent 0 eq_refl eq_refl) | exact Hurls].
Defined.

Lemma download_from_file_fields_witness :
  truthy (dict_get_default "save_path"
            [("savepath", PStr "/new"); ("save_path", PStr "/old")]) = true
  /\ exists data files,
       download_from_file (const_server (mk_response 200 ""))
         sample_json_loads (PFile 7)
         [("savepath", PStr "/new"); ("save_path", PStr "/old")]
         logged_in one_session
       = _post (const_server (mk_response 200 "")) sample_json_loads
           "torrents/add" (PDict data) [("files", PDict files)]
           logged_in one_session
       /\ dict_get "savepath" data = Some (PStr "/old").
Proof.
  split; [reflexivity|].
  destruct (download_from_file_fields (const_server (mk_response 200 ""))
              sample_json_loads (PFile 7)
              [("savepath", PStr "/new"); ("save_path", PStr "/old")]
              logged_in one_session)
    as [data [files [Heq [_ [_ [Hsave _]]]]]].
  exists data, files. split; [exact Heq|].
  rewrite Hsave; reflexivity.
Defined.

Lemma all_variants_agree_witness :
  ascii_lower "All" = "all"
  /\ pause ascii_lower (const_server (mk_response 200 "")) sample_json_loads
       (PStr "All") logged_in one_session
     = pause_all (const_server (mk_response 200 "")) sample_json_loads
         logged_in one_session.
Proof.
  split; [reflexivity|].
  apply (all_variants_agree ascii_lower (const_server (mk_response 200 ""))
           sample_json_loads "All" logged_in one_session PNone).
  reflexivity.
Defined.

Lemma calls_reach_their_endpoint_witness :
  reachable ascii_lower (const_server (mk_response 200 "{}")) sample_json_loads
    sample_json_dumps
    (client_of (__init__ (const_server (mk_response 200 "{}"))
                  "http://localhost:8080" fresh_world))
  /\ exists new,
       dispatched one_session
         (world_of (run_call ascii_lower (const_server (mk_response 200 "{}"))
                      sample_json_loads sample_json_dumps Call_preferences
                      (client_of
                         (__init__ (const_server (mk_response 200 "{}"))
                            "http://localhost:8080" fresh_world))
                      one_session)) new
       /\ Forall (fun rq =>
                    rq_url rq
                    = url (client_of
                             (__init__ (const_server (mk_response 200 "{}"))
                                "http://localhost:8080" fresh_world))
                      ++ endpoint_of Call_preferences) new.
Proof.
  split; [apply reach_init|].
  apply (calls_reach_their_endpoint ascii_lower
           (const_server (mk_response 200 "{}"))
           sample_json_loads sample_json_dumps Call_preferences
           (client_of (__init__ (const_server (mk_response 200 "{}"))
                         "http://localhost:8080" fresh_world))
           one_session).
  apply reach_init.
Defined.
